(** * alpha-terminal: the signal retrieval, normalisation and ranking layer

    A shallow embedding of the TypeScript sources of the repository

      - [lib/signal.ts]                      (module [LibSignal])
      - [app/api/signals/route.ts]           (module [SignalsRoute])
      - the patched signals route            (module [SignalsRoutePatch])
      - [app/page.tsx], the derived metrics  (module [Page])
      - the review-candidates route          (module [Candidates])
      - the label writer route               (module [TeachLabel])
      - [app/api/ingest-scan/route.ts]       (modules [IngestScan], [IngestScanInline],
                                              [IngestHealth])
      - [app/page.tsx], the display          (module [PageView])
      - [app/teach/page.tsx], the form       (module [TeachPage])

    followed by the properties of the specification that concern them, and
    by further properties of the code.

    JavaScript values are modelled by [JsVal]; objects are finite maps from
    property names to values, so that object spread is map union and the
    order in which a literal writes its properties and its spreads decides
    which one wins.  Numbers are the extended rationals [number]: a finite
    double is modelled by the rational it denotes (rounding, overflow and the
    sign of zero are not modelled), with [NaN] and the two infinities kept
    apart because the code tests for them.  Exceptions are explicit: a
    function that can throw returns a [Result].  What the code leaves to the
    JavaScript engine is the class [Builtins]; the properties hold for every
    instance of it, and [Engine.sample] is one to run the code with. *)

From Stdlib Require Import QArith Qround Lqa Ascii.
From Stdlib Require Import Sorting.Sorted Sorting.Permutation.
From stdpp Require Import gmap strings list fin_maps pretty.

#[local] Set Warnings "-register-all".

(** ** Numbers *)

Inductive number :=
| NaN
| Inf (neg : bool)
| Fin (q : Q).

Arguments Fin q%_Q.

Definition Qltb (x y : Q) : bool := negb (Qle_bool y x).

Definition is_nan (a : number) : bool :=
  match a with NaN => true | _ => false end.

(** [Number.isFinite] *)
Definition isFinite (a : number) : bool :=
  match a with Fin _ => true | _ => false end.

(** [a < b]; every comparison with [NaN] is false. *)
Definition num_ltb (a b : number) : bool :=
  match a, b with
  | NaN, _ | _, NaN => false
  | Inf true, Inf true => false
  | Inf true, _ => true
  | _, Inf true => false
  | Inf false, _ => false
  | _, Inf false => true
  | Fin x, Fin y => Qltb x y
  end.

(** [a > b] *)
Definition num_gtb (a b : number) : bool := num_ltb b a.

(** [a === b] on numbers: [NaN] differs from itself. *)
Definition num_eqb (a b : number) : bool :=
  match a, b with
  | Fin x, Fin y => Qeq_bool x y
  | Inf s, Inf t => bool_decide (s = t)
  | _, _ => false
  end.

Definition num_neg (a : number) : number :=
  match a with
  | NaN => NaN
  | Inf s => Inf (negb s)
  | Fin x => Fin (- x)
  end.

Definition num_add (a b : number) : number :=
  match a, b with
  | NaN, _ | _, NaN => NaN
  | Inf s, Inf t => if bool_decide (s = t) then Inf s else NaN
  | Inf s, Fin _ => Inf s
  | Fin _, Inf t => Inf t
  | Fin x, Fin y => Fin (x + y)
  end.

Definition num_sub (a b : number) : number := num_add a (num_neg b).

Definition num_mul (a b : number) : number :=
  match a, b with
  | NaN, _ | _, NaN => NaN
  | Inf s, Inf t => Inf (xorb s t)
  | Inf s, Fin y =>
      if Qeq_bool y 0 then NaN else Inf (xorb s (Qltb y 0))
  | Fin x, Inf t =>
      if Qeq_bool x 0 then NaN else Inf (xorb (Qltb x 0) t)
  | Fin x, Fin y => Fin (x * y)
  end.

Definition num_div (a b : number) : number :=
  match a, b with
  | NaN, _ | _, NaN => NaN
  | Inf _, Inf _ => NaN
  | Inf s, Fin y => Inf (xorb s (Qltb y 0))
  | Fin _, Inf _ => Fin 0
  | Fin x, Fin y =>
      if Qeq_bool y 0
      then (if Qeq_bool x 0 then NaN else Inf (Qltb x 0))
      else Fin (x / y)
  end.

(** [Math.min] and [Math.max]: [NaN] as soon as one argument is. *)
Definition Math_min (a b : number) : number :=
  if is_nan a || is_nan b then NaN else if num_ltb b a then b else a.

Definition Math_max (a b : number) : number :=
  if is_nan a || is_nan b then NaN else if num_ltb a b then b else a.

(** Equality of numbers as values: rationals up to [Qeq]. *)
Definition num_equiv (a b : number) : Prop :=
  match a, b with
  | NaN, NaN => True
  | Inf s, Inf t => s = t
  | Fin x, Fin y => (x == y)%Q
  | _, _ => False
  end.

Infix "=n=" := num_equiv (at level 70, no associativity).

Definition of_nat (n : nat) : number := Fin (inject_Z (Z.of_nat n)).

(** ** Values *)

Inductive JsVal :=
| JUndefined
| JNull
| JBool (b : bool)
| JNum (n : number)
| JStr (s : string)
| JArr (items : list JsVal)
| JObj (props : gmap string JsVal).

(** The exceptions the code can meet: an [Error] thrown with a message, and
    the [TypeError] of reading a property of [null] or [undefined]. *)
Inductive Exn :=
| Error (message : string)
| TypeError.

Inductive Result (A : Type) :=
| Ok (a : A)
| Throw (e : Exn).

Arguments Ok {A} a.
Arguments Throw {A} e.

#[global] Instance Result_bind : MBind Result := λ A B k r,
  match r with
  | Ok a => k a
  | Throw e => Throw e
  end.

#[global] Instance Result_ret : MRet Result := λ A a, Ok a.

(** [l.map(f)] where [f] can throw: the first exception ends the loop. *)
Fixpoint mapR {A B} (f : A → Result B) (l : list A) : Result (list B) :=
  match l with
  | [] => Ok []
  | x :: l' => y ← f x; ys ← mapR f l'; Ok (y :: ys)
  end.

(** [try { r } catch (e) { h e }] *)
Definition try_catch {A} (r : Result A) (h : Exn → Result A) : Result A :=
  match r with
  | Ok a => Ok a
  | Throw e => h e
  end.

(** The operations of the language the embedding leaves to the engine:
    parsing a string as a number, the conversion of an object or array to a
    number or a string, the printing of a number, the text of a
    [TypeError], and [String.prototype.localeCompare]. *)
Class Builtins := {
  StringToNumber : string → number;
  ObjectToNumber : JsVal → number;
  NumberToString : number → string;
  ObjectToString : JsVal → string;
  typeErrorMessage : string;
  localeCompare : string → string → number
}.

Section Prelude.
Context {B : Builtins}.

(** [Number(v)] *)
Definition ToNumber (v : JsVal) : number :=
  match v with
  | JUndefined => NaN
  | JNull => Fin 0
  | JBool b => if b then Fin 1 else Fin 0
  | JNum n => n
  | JStr s => StringToNumber s
  | JArr _ | JObj _ => ObjectToNumber v
  end.

(** [String(v)] *)
Definition ToString (v : JsVal) : string :=
  match v with
  | JUndefined => "undefined"
  | JNull => "null"
  | JBool b => if b then "true" else "false"
  | JNum n => NumberToString n
  | JStr s => s
  | JArr _ | JObj _ => ObjectToString v
  end.

(** [e?.message] of a caught exception *)
Definition message_of (e : Exn) : string :=
  match e with
  | Error m => m
  | TypeError => typeErrorMessage
  end.
End Prelude.

(** Truthiness: what [!v], [v && _], [v || _] and [if (v)] test. *)
Definition truthy (v : JsVal) : bool :=
  match v with
  | JUndefined | JNull => false
  | JBool b => b
  | JNum NaN => false
  | JNum (Inf _) => true
  | JNum (Fin q) => negb (Qeq_bool q 0)
  | JStr s => negb (bool_decide (s = ""))
  | JArr _ | JObj _ => true
  end.

Definition nullish (v : JsVal) : bool :=
  match v with
  | JUndefined | JNull => true
  | _ => false
  end.

(** [a ?? b] *)
Definition nullish_or (a b : JsVal) : JsVal := if nullish a then b else a.

Infix "??" := nullish_or (at level 45, right associativity).

(** [typeof v === "number"], [typeof v !== "undefined"], [typeof v === "object"],
    [Array.isArray(v)] *)
Definition is_number (v : JsVal) : bool :=
  match v with JNum _ => true | _ => false end.

Definition is_defined (v : JsVal) : bool :=
  match v with JUndefined => false | _ => true end.

Definition is_object (v : JsVal) : bool :=
  match v with JNull | JArr _ | JObj _ => true | _ => false end.

Definition isArray (v : JsVal) : bool :=
  match v with JArr _ => true | _ => false end.

Definition items_of (v : JsVal) : list JsVal :=
  match v with JArr l => l | _ => [] end.

(** [v === "s"] against a string *)
Definition is_str (v : JsVal) (s : string) : bool :=
  match v with
  | JStr t => bool_decide (t = s)
  | _ => false
  end.

(** Membership in a [Set]: primitives by value ([NaN] is itself), objects and
    arrays by identity, which two values read from different rows never
    share. *)
Definition sameValueZero (a b : JsVal) : bool :=
  match a, b with
  | JUndefined, JUndefined | JNull, JNull => true
  | JBool x, JBool y => bool_decide (x = y)
  | JNum NaN, JNum NaN => true
  | JNum x, JNum y => num_eqb x y
  | JStr x, JStr y => bool_decide (x = y)
  | _, _ => false
  end.

(** [v.k] where [v] is known not to be [null] or [undefined].  The keys the
    code reads are fixed names, none of them [length] or the name of a
    method, so arrays, strings and the other primitives have none of them. *)
Definition get (v : JsVal) (k : string) : JsVal :=
  match v with
  | JObj m => default JUndefined (m !! k)
  | _ => JUndefined
  end.

Arguments get : simpl never.

(** [v.k] in general: reading a property of [null] or [undefined] throws. *)
Definition getE (v : JsVal) (k : string) : Result JsVal :=
  if nullish v then Throw TypeError else Ok (get v k).

(** [v?.k] *)
Definition opt (v : JsVal) (k : string) : JsVal :=
  if nullish v then JUndefined else get v k.

(** [v.k = x], for the assignments of the code: each follows a test that
    [v.k] is defined, which only an object passes. *)
Definition assign (v : JsVal) (k : string) (x : JsVal) : JsVal :=
  match v with
  | JObj m => JObj (<[k := x]> m)
  | _ => v
  end.

Fixpoint chars_of (s : string) : list JsVal :=
  match s with
  | EmptyString => []
  | String c s' => JStr (String c EmptyString) :: chars_of s'
  end.

(** [v[0]] on a value that is not [null] or [undefined], and [v?.[0]] *)
Definition get0 (v : JsVal) : JsVal :=
  match v with
  | JArr l => default JUndefined (head l)
  | JStr s => default JUndefined (head (chars_of s))
  | JObj m => default JUndefined (m !! "0")
  | _ => JUndefined
  end.

Definition opt0 (v : JsVal) : JsVal :=
  if nullish v then JUndefined else get0 v.

Definition indexed (l : list JsVal) : gmap string JsVal :=
  list_to_map (imap (fun i x => (pretty i, x)) l).

(** [{...v}]: the own enumerable properties of [v]. *)
Definition spread (v : JsVal) : gmap string JsVal :=
  match v with
  | JObj m => m
  | JArr l => indexed l
  | JStr s => indexed (chars_of s)
  | _ => ∅
  end.

(** An object literal [{k1: v1, ..., kn: vn}]; a later key wins. *)
Definition obj (kvs : list (string * JsVal)) : gmap string JsVal :=
  list_to_map (reverse kvs).

(** ** Arrays *)

(** [ToIntegerOrInfinity] followed by the clamping of [Array.prototype.slice]
    for its [end] argument, on an array of length [len]. *)
Definition Qtrunc (q : Q) : Z :=
  if Qltb q 0 then Qceiling q else Qfloor q.

Definition slice_end (len : nat) (e : number) : nat :=
  match e with
  | NaN => 0
  | Inf true => 0
  | Inf false => len
  | Fin q =>
      let k := Qtrunc q in
      if (k <? 0)%Z then Z.to_nat (Z.max (Z.of_nat len + k) 0)
      else Nat.min (Z.to_nat k) len
  end.

(** [l.slice(0, e)] *)
Definition slice0 {A} (l : list A) (e : number) : list A :=
  take (slice_end (length l) e) l.

(** [Array.prototype.sort] with a comparator, as a stable insertion sort: an
    element is placed before the first element of the sorted rest that the
    comparator does not put before it (a positive result moves on; zero,
    a negative result and [NaN] stop). *)
Fixpoint sort_insert {A} (cmp : A → A → number) (x : A) (l : list A) : list A :=
  match l with
  | [] => [x]
  | y :: l' =>
      if num_gtb (cmp x y) (Fin 0) then y :: sort_insert cmp x l' else x :: l
  end.

Definition array_sort {A} (cmp : A → A → number) (l : list A) : list A :=
  foldr (sort_insert cmp) [] l.

(** ** Strings *)

Fixpoint drop_prefix (p s : string) : option string :=
  match p, s with
  | EmptyString, _ => Some s
  | String a p', String b s' =>
      if bool_decide (a = b) then drop_prefix p' s' else None
  | String _ _, EmptyString => None
  end.

(** [s.includes(pat)] *)
Fixpoint includes (s pat : string) : bool :=
  match drop_prefix pat s with
  | Some _ => true
  | None =>
      match s with
      | EmptyString => false
      | String _ s' => includes s' pat
      end
  end.

(** [s.replace(pat, rep)] for a string pattern: the first occurrence only. *)
Fixpoint replace_first (pat rep s : string) : string :=
  match drop_prefix pat s with
  | Some rest => rep +:+ rest
  | None =>
      match s with
      | EmptyString => EmptyString
      | String c s' => String c (replace_first pat rep s')
      end
  end.

(** ** The process environment, requests and responses *)

(** [process.env]: a variable is a string or is not set. *)
Record Env := {
  SUPABASE_URL : option string;
  SUPABASE_SERVICE_ROLE_KEY : option string;
  INGEST_TOKEN : option string;
  TEACH_TOKEN : option string
}.

(** [!v] for an environment variable: not set, or the empty string. *)
Definition unset (v : option string) : bool :=
  match v with
  | None => true
  | Some s => bool_decide (s = "")
  end.

(** A request: the query parameters of its URL ([searchParams.get] is the
    lookup), its headers under their lower-case names ([headers.get] is the
    lookup), and what [req.json()] gives. *)
Record Request := {
  searchParams : gmap string string;
  headers : gmap string string;
  json : Result JsVal
}.

(** [NextResponse.json(body, { status })] *)
Record Response := {
  status : nat;
  body : gmap string JsVal
}.

Definition respond (kvs : list (string * JsVal)) : Response :=
  {| status := 200; body := obj kvs |}.

Definition respond_with (st : nat) (kvs : list (string * JsVal)) : Response :=
  {| status := st; body := obj kvs |}.

(** What awaiting a store query gives: the pair [{ data, error }], or a
    rejection.  Rows are objects. *)
Inductive Outcome (D : Type) :=
| Resolved (data : D) (error : option string)
| Rejected (e : Exn).

Arguments Resolved {D} data error.
Arguments Rejected {D} e.

(** The query the signals routes build:
    [from("signals").select("*").order("created_at", { ascending: false })
     .limit(n)], with [.eq("label", l)] when a label is asked for. *)
Record SignalsQuery := {
  q_limit : number;
  q_label : option string
}.

(** What a signals route sees of the world: the environment, the signals
    table behind the store client, the JSON files on disk ([readFile]
    followed by [JSON.parse], by path relative to the working directory) and
    the clock. *)
Record World := {
  env : Env;
  signals_table : SignalsQuery → Outcome (option (list (gmap string JsVal)));
  read_json : string → Result JsVal;
  now : string
}.

(** * [lib/signal.ts] *)

Module LibSignal.
Section WithBuiltins.
Context {B : Builtins}.

(** The fields [cardToSignal] computes and writes out by name, before the
    card itself is spread. *)
Definition explicitFields (card as_of : JsVal) (defaultLabel : string)
  : Result (gmap string JsVal) :=
  cardLabels ← getE card "labels";
  let labels := if isArray cardLabels then cardLabels else JArr [] in
  let label := get0 labels ?? JStr defaultLabel in
  let plan := get card "plan" ?? JObj ∅ in
  let planEntry := get plan "entry" in
  let entry :=
    if is_str (opt planEntry "type") "breakout_confirmation" then
      obj [("type", JStr "breakout_confirmation");
           ("trigger", get planEntry "trigger");
           ("why", get planEntry "why")]
    else if is_str (opt planEntry "type") "value_zone" then
      obj [("type", JStr "value_zone");
           ("zone", get planEntry "zone");
           ("why", get planEntry "why")]
    else obj [("price", get card "price")] in
  let stopPrice :=
    if is_number (opt (get plan "exit_if_wrong") "stop")
    then get (get plan "exit_if_wrong") "stop"
    else opt (opt card "stop") "price" in
  targets ←
    (if isArray (get plan "targets") then
       ts ← mapR (λ t, p ← getE t "price";
                       Ok (JObj (obj [("price", JNum (ToNumber p))])))
                 (items_of (get plan "targets"));
       Ok (JArr ts)
     else if isArray (opt card "targets") then Ok (opt card "targets")
     else Ok (JArr []));
  Ok (obj [("as_of", as_of);
           ("ticker", get card "ticker");
           ("label", label);
           ("plan_type", opt planEntry "type" ?? JStr "unknown");
           ("entry", JObj entry);
           ("stop", JObj (obj [("price", JNum (ToNumber (stopPrice ?? JNum (Fin 0))))]));
           ("targets", targets);
           ("vol_z", get card "vol_z");
           ("rs_vs_spy", get card "rs_vs_spy" ?? get card "rs_60d_vs_spy");
           ("learned_top_rules", get card "learned_top_rules")]).

(** The object literal ends with [...card]: the card's own properties are
    written last, over the explicit ones. *)
Definition cardToSignal (card as_of : JsVal) (defaultLabel : string)
  : Result JsVal :=
  explicit ← explicitFields card as_of defaultLabel;
  Ok (JObj (spread card ∪ explicit)).

Definition cardsFileToSignals (now : string) (file : JsVal) (defaultLabel : string)
  : Result (list JsVal) :=
  fileAsOf ← getE file "as_of";
  let as_of := fileAsOf ?? JStr now in
  match get file "cards" ?? JArr [] with
  | JArr cards => mapR (λ c, cardToSignal c as_of defaultLabel) cards
  | _ => Throw TypeError
  end.
End WithBuiltins.
End LibSignal.

(** * [app/api/signals/route.ts] *)

Module SignalsRoute.
Section WithBuiltins.
Context {B : Builtins}.

(** The client [createClient] returns is the [signals_table] of the
    world; what remains of [getSupabase] is its check. *)
Definition getSupabase (e : Env) : Result unit :=
  if unset (SUPABASE_URL e) || unset (SUPABASE_SERVICE_ROLE_KEY e)
  then Throw (Error "Missing SUPABASE_URL / SUPABASE_SERVICE_ROLE_KEY")
  else Ok tt.

(** [if (typeof o.k !== "undefined") o.k = Number(o.k)] *)
Definition coerceProp (o : JsVal) (k : string) : JsVal :=
  if is_defined (get o k) then assign o k (JNum (ToNumber (get o k))) else o.

(** The two assignments to [out.zone.low] and [out.zone.high] write into the
    zone object that the copy [out] shares with [entry]; [out] is returned
    with the zone as they leave it. *)
Definition normalizeEntry (entry : JsVal) : JsVal :=
  if negb (truthy entry) then JObj ∅
  else
    let out := JObj (spread entry) in
    let out := coerceProp out "trigger" in
    let out :=
      if truthy (get out "zone") && is_object (get out "zone")
      then assign out "zone" (coerceProp (coerceProp (get out "zone") "low") "high")
      else out in
    coerceProp out "price".

Definition normalizeStop (stop : JsVal) : JsVal :=
  if negb (truthy stop) then JObj (obj [("price", JNum (Fin 0))])
  else if is_number stop then JObj (obj [("price", stop)])
  else
    let price :=
      get stop "price" ?? get stop "stop" ?? get stop "stop_price" ?? JNum (Fin 0) in
    JObj (<["price" := JNum (ToNumber (price ?? JNum (Fin 0)))]> (spread stop)).

Definition extractAi (entry : JsVal) : JsVal :=
  let ai := opt entry "ai" ?? opt entry "AI" ?? JNull in
  if negb (truthy ai) then JNull
  else JObj (obj [("probability", get ai "probability" ?? JNull);
                  ("confidence", get ai "confidence" ?? JNull);
                  ("why", get ai "why" ?? JNull);
                  ("chosen_stop", get ai "chosen_stop" ?? JNull);
                  ("stop_ladder", get ai "stop_ladder" ?? JNull);
                  ("runtime_ms", get ai "runtime_ms" ?? JNull)]).

(** [tryRead]: a failed read or parse gives [null]. *)
Definition tryRead (w : World) (fname : string) : JsVal :=
  match read_json w ("market_ai_kit/output/" +:+ fname) with
  | Ok v => v
  | Throw _ => JNull
  end.

(** What one snapshot adds to [out]: nothing when [tryRead] gave a falsy
    value. *)
Definition pushed (w : World) (file : JsVal) (defaultLabel : string)
  : Result (list JsVal) :=
  if truthy file then LibSignal.cardsFileToSignals (now w) file defaultLabel
  else Ok [].

Definition by_recency (a b : JsVal) : number :=
  localeCompare
    (ToString (get b "created_at" ?? get b "as_of" ?? JStr ""))
    (ToString (get a "created_at" ?? get a "as_of" ?? JStr "")).

Definition fallbackSignals (w : World) : Result (list JsVal) :=
  let ready := tryRead w "ready.json" in
  let early := tryRead w "early.json" in
  let watch := tryRead w "watch.json" in
  r ← pushed w ready "READY_CONFIRMED";
  e ← pushed w early "EARLY";
  t ← pushed w watch "WATCH";
  Ok (array_sort by_recency (r ++ e ++ t)).

(** [Math.min(Number(url.searchParams.get("limit") ?? "200"), 1000)] *)
Definition limit_of (req : Request) : number :=
  Math_min (ToNumber (JStr (default "200" (searchParams req !! "limit")))) (Fin 1000).

(** The query sent to the store; [if (label)] adds the filter. *)
Definition query_of (req : Request) : SignalsQuery :=
  {| q_limit := limit_of req;
     q_label := match searchParams req !! "label" with
                | Some l => if bool_decide (l = "") then None else Some l
                | None => None
                end |}.

Definition normalizeRow (s : gmap string JsVal) : JsVal :=
  let entry := normalizeEntry (get (JObj s) "entry") in
  let ai := extractAi entry in
  JObj (obj [("entry", entry);
             ("stop", normalizeStop (get (JObj s) "stop"));
             ("targets", if isArray (get (JObj s) "targets")
                         then get (JObj s) "targets" else JArr []);
             ("probability", opt ai "probability" ?? get (JObj s) "probability" ?? JNull);
             ("confidence", opt ai "confidence" ?? get (JObj s) "confidence" ?? JNull);
             ("why", opt ai "why" ?? get (JObj s) "why" ?? JNull);
             ("chosen_stop", opt ai "chosen_stop" ?? get (JObj s) "chosen_stop" ?? JNull);
             ("stop_ladder", opt ai "stop_ladder" ?? get (JObj s) "stop_ladder" ?? JNull)]
        ∪ s).

Definition GET (w : World) (req : Request) : Result Response :=
  let limit := limit_of req in
  let label := searchParams req !! "label" in
  try_catch
    (_ ← getSupabase (env w);
     match signals_table w (query_of req) with
     | Rejected e => Throw e
     | Resolved data (Some message) =>
         fb ← fallbackSignals w;
         let as_of :=
           opt (opt0 (JArr fb)) "created_at" ?? opt (opt0 (JArr fb)) "as_of" ?? JNull in
         Ok (respond [("source", JStr "fallback_after_db_error");
                      ("as_of", as_of);
                      ("error", JStr message);
                      ("signals", JArr fb)])
     | Resolved data None =>
         let normalized := normalizeRow <$> default [] data in
         let as_of := opt (opt0 (JArr normalized)) "created_at" ?? JNull in
         Ok (respond [("source", JStr "supabase");
                      ("as_of", as_of);
                      ("signals", JArr normalized)])
     end)
    (λ e,
       fb ← fallbackSignals w;
       let filtered :=
         match label with
         | Some l =>
             if bool_decide (l = "") then fb
             else filter (λ s, is_str (get s "label") l = true) fb
         | None => fb
         end in
       let sliced := slice0 filtered (Math_min (of_nat (length filtered)) limit) in
       let as_of :=
         opt (opt0 (JArr sliced)) "created_at" ?? opt (opt0 (JArr sliced)) "as_of" ?? JNull in
       Ok (respond [("source", JStr "fallback");
                    ("as_of", as_of);
                    ("error", JStr (message_of e));
                    ("signals", JArr sliced)])).
End WithBuiltins.
End SignalsRoute.

(** * The patched signals route (reads [public/data], no [try]) *)

Module SignalsRoutePatch.
Section WithBuiltins.
Context {B : Builtins}.

Definition normalizeEntry (entry : JsVal) : JsVal :=
  if negb (truthy entry) then JObj (obj [("price", JNull)])
  else if is_number entry then JObj (obj [("price", entry)])
  else if is_number (get entry "price") then entry
  else if is_number (get entry "trigger")
    then JObj (<["price" := get entry "trigger"]> (spread entry))
  else if truthy (get entry "zone")
          && is_number (get (get entry "zone") "low")
          && is_number (get (get entry "zone") "high")
    then JObj (<["price" :=
                  JNum (num_div (num_add (ToNumber (get (get entry "zone") "low"))
                                         (ToNumber (get (get entry "zone") "high")))
                                (Fin 2))]> (spread entry))
  else entry.

(** [true] when the client can be created, [null] otherwise. *)
Definition supabaseIfConfigured (e : Env) : bool :=
  negb (unset (SUPABASE_URL e) || unset (SUPABASE_SERVICE_ROLE_KEY e)).

Definition readJsonFromPublic (w : World) (rel : string) : Result JsVal :=
  read_json w ("public/" +:+ rel).

(** [Promise.all] over the three reads: one rejection rejects the whole
    (here with the error of the first file, in the order of the array, that
    fails). *)
Definition fallbackSignals (w : World) : Result (list JsVal) :=
  ready ← readJsonFromPublic w "data/ready.json";
  early ← readJsonFromPublic w "data/early.json";
  watch ← readJsonFromPublic w "data/watch.json";
  r ← LibSignal.cardsFileToSignals (now w) ready "READY_CONFIRMED";
  e ← LibSignal.cardsFileToSignals (now w) early "EARLY";
  t ← LibSignal.cardsFileToSignals (now w) watch "WATCH";
  Ok ((λ s, JObj (<["entry" := normalizeEntry (get s "entry")]> (spread s)))
        <$> (r ++ e ++ t)).

(** [Number(url.searchParams.get("limit") ?? "200")] *)
Definition limit_of (req : Request) : number :=
  ToNumber (JStr (default "200" (searchParams req !! "limit"))).

(** [.limit(Math.min(Math.max(limit, 1), 1000))] *)
Definition query_of (req : Request) : SignalsQuery :=
  {| q_limit := Math_min (Math_max (limit_of req) (Fin 1)) (Fin 1000);
     q_label := match searchParams req !! "label" with
                | Some l => if bool_decide (l = "") then None else Some l
                | None => None
                end |}.

Definition GET (w : World) (req : Request) : Result Response :=
  let limit := limit_of req in
  let label := searchParams req !! "label" in
  if supabaseIfConfigured (env w) then
    match signals_table w (query_of req) with
    | Rejected e => Throw e
    | Resolved data (Some message) =>
        fb ← fallbackSignals w;
        Ok (respond [("source", JStr "fallback_after_db_error");
                     ("error", JStr message);
                     ("signals", JArr fb)])
    | Resolved data None =>
        let normalized :=
          (λ s, JObj (<["entry" := normalizeEntry (get (JObj s) "entry")]> s))
            <$> default [] data in
        Ok (respond [("source", JStr "supabase");
                     ("signals", JArr normalized)])
    end
  else
    fb ← fallbackSignals w;
    let filtered :=
      match label with
      | Some l =>
          if bool_decide (l = "") then fb
          else filter (λ s, is_str (get s "label") l = true) fb
      | None => fb
      end in
    Ok (respond [("source", JStr "fallback");
                 ("signals",
                  JArr (slice0 filtered (Math_min (of_nat (length filtered)) limit)))]).
End WithBuiltins.
End SignalsRoutePatch.

(** * [app/page.tsx]: the derived metrics *)

Module Page.
Section WithBuiltins.
Context {B : Builtins}.

(** [num(x, d = 0)] *)
Definition num (x : JsVal) (d : number) : number :=
  let n := ToNumber x in
  if isFinite n then n else d.

(** The numbers the callback of [enriched] derives from one signal [s],
    an object: [probability ?? 0] coerced by the arithmetic, then
    [entryRef], [tp1], [stopPrice], [risk], [reward], [rr] and [ev]. *)
Definition probabilityOf (s : gmap string JsVal) : JsVal :=
  let ai := opt (get (JObj s) "entry") "ai" ?? JNull in
  get (JObj s) "probability" ?? opt ai "probability" ?? JNull.

Definition chosenStopOf (s : gmap string JsVal) : JsVal :=
  let ai := opt (get (JObj s) "entry") "ai" ?? JNull in
  get (JObj s) "chosen_stop" ?? opt ai "chosen_stop" ?? JNull.

Definition entryRef (s : gmap string JsVal) : number :=
  let entry := get (JObj s) "entry" in
  num (opt entry "trigger" ?? opt entry "price" ?? opt (opt entry "zone") "low"
         ?? JNum (Fin 0)) (Fin 0).

Definition tp1 (s : gmap string JsVal) : number :=
  num (opt (opt0 (get (JObj s) "targets")) "price" ?? JNum (Fin 0)) (Fin 0).

Definition stopPrice (s : gmap string JsVal) : number :=
  num (opt (get (JObj s) "stop") "price" ?? opt (chosenStopOf s) "stop_price"
         ?? JNum (Fin 0)) (Fin 0).

Definition risk (s : gmap string JsVal) : number :=
  num_sub (entryRef s) (stopPrice s).

Definition reward (s : gmap string JsVal) : number :=
  num_sub (tp1 s) (entryRef s).

Definition rr (s : gmap string JsVal) : number :=
  if num_gtb (risk s) (Fin 0) && num_gtb (reward s) (Fin 0)
  then num_div (reward s) (risk s)
  else Fin 0.

Definition ev (s : gmap string JsVal) : number :=
  let p := ToNumber (probabilityOf s ?? JNum (Fin 0)) in
  num_sub (num_mul p (rr s)) (num_sub (Fin 1) p).

(** One step of [(signals ?? []).map(...)]. *)
Definition enrich (s : gmap string JsVal) : JsVal :=
  let ai := opt (get (JObj s) "entry") "ai" ?? JNull in
  JObj (obj [("probability", probabilityOf s);
             ("confidence", get (JObj s) "confidence" ?? opt ai "confidence" ?? JNull);
             ("why", get (JObj s) "why" ?? opt ai "why" ?? JNull);
             ("stop_ladder", get (JObj s) "stop_ladder" ?? opt ai "stop_ladder" ?? JNull);
             ("chosen_stop", chosenStopOf s);
             ("__entryRef", JNum (entryRef s));
             ("__tp1", JNum (tp1 s));
             ("__stop", JNum (stopPrice s));
             ("__rr", JNum (rr s));
             ("__ev", JNum (ev s))]
        ∪ s).

Definition enriched (signals : list (gmap string JsVal)) : list JsVal :=
  enrich <$> signals.
End WithBuiltins.
End Page.

(** * The review-candidates route *)

(** The three queries of the route: the latest scan run ([.single()]), the
    signals of a run (by its [id], at most 300), and the tickers already
    labelled for an [as_of] among the given ones. *)
Record TeachStore := {
  latest_scan_run : Outcome JsVal;
  signals_of_run : JsVal → Outcome (option (list (gmap string JsVal)));
  labeled_tickers : JsVal → list JsVal → Outcome (option (list (gmap string JsVal)));
  insert_label : gmap string JsVal → Outcome JsVal
}.

Module Candidates.
Section WithBuiltins.
Context {B : Builtins}.

Definition getSupabase (e : Env) : Result unit :=
  if unset (SUPABASE_URL e) || unset (SUPABASE_SERVICE_ROLE_KEY e)
  then Throw (Error "Supabase env vars missing (SUPABASE_URL / SUPABASE_SERVICE_ROLE_KEY)")
  else Ok tt.

(** [req.headers.get("authorization")?.replace("Bearer ", "")] *)
Definition bearer (req : Request) : option string :=
  replace_first "Bearer " "" <$> headers req !! "authorization".

Definition mustAuth (e : Env) (req : Request) : bool :=
  let token := bearer req in
  if unset (TEACH_TOKEN e) || negb (bool_decide (token = TEACH_TOKEN e))
  then false
  else true.

Definition labelRank (lbl : JsVal) : number :=
  if is_str lbl "READY_CONFIRMED" then Fin 0
  else if includes (ToString lbl) "EARLY" then Fin 1
  else if is_str lbl "WATCH" then Fin 2
  else Fin 3.

(** The comparator handed to [sort]. *)
Definition compareCandidates (a b : gmap string JsVal) : number :=
  let la := labelRank (get (JObj a) "label") in
  let lb := labelRank (get (JObj b) "label") in
  if negb (num_eqb la lb) then num_sub la lb
  else
    let rsA := ToNumber (get (JObj a) "rs_vs_spy" ?? JNum (Fin 0)) in
    let rsB := ToNumber (get (JObj b) "rs_vs_spy" ?? JNum (Fin 0)) in
    if negb (num_eqb rsA rsB) then num_sub rsB rsA
    else
      let vzA := ToNumber (get (JObj a) "vol_z" ?? JNum (Fin 0)) in
      let vzB := ToNumber (get (JObj b) "vol_z" ?? JNum (Fin 0)) in
      num_sub vzB vzA.

(** [(signals ?? []).slice().sort(...).slice(0, 10)] *)
Definition sorted (signals : option (list (gmap string JsVal)))
  : list (gmap string JsVal) :=
  take 10 (array_sort compareCandidates (default [] signals)).

Definition GET (e : Env) (st : TeachStore) (req : Request) : Result Response :=
  _ ← getSupabase e;
  if negb (mustAuth e req)
  then Ok (respond_with 401 [("error", JStr "unauthorized")])
  else
    match latest_scan_run st with
    | Rejected x => Throw x
    | Resolved scanRun scanErr =>
        if bool_decide (is_Some scanErr) || negb (truthy scanRun)
        then Ok (respond_with 500
                   [("error", JStr (default "no scan_runs found" scanErr))])
        else
          match signals_of_run st (get scanRun "id") with
          | Rejected x => Throw x
          | Resolved signals (Some message) =>
              Ok (respond_with 500 [("error", JStr message)])
          | Resolved signals None =>
              let ranked := sorted signals in
              let tickers := (λ x, get (JObj x) "ticker") <$> ranked in
              match labeled_tickers st (get scanRun "as_of") tickers with
              | Rejected x => Throw x
              | Resolved labeled _ =>
                  let labeledSet := (λ x, get (JObj x) "ticker") <$> default [] labeled in
                  Ok (respond
                        [("ok", JBool true);
                         ("as_of", get scanRun "as_of");
                         ("scan_run_id", get scanRun "id");
                         ("candidates",
                          JArr ((λ s, JObj (<["already_labeled_today" :=
                                               JBool (existsb
                                                 (sameValueZero (get (JObj s) "ticker"))
                                                 labeledSet)]> s))
                                  <$> ranked))])
              end
          end
    end.
End WithBuiltins.
End Candidates.

(** * The label writer route *)

Module TeachLabel.
Section WithBuiltins.
Context {B : Builtins}.

Definition getSupabase (e : Env) : Result unit :=
  if unset (SUPABASE_URL e) || unset (SUPABASE_SERVICE_ROLE_KEY e)
  then Throw (Error "Supabase env vars missing (SUPABASE_URL / SUPABASE_SERVICE_ROLE_KEY)")
  else Ok tt.

Definition requireTeachToken (e : Env) (req : Request) : bool :=
  let token := replace_first "Bearer " "" <$> headers req !! "authorization" in
  negb (unset (TEACH_TOKEN e)) && bool_decide (token = TEACH_TOKEN e).

Definition required : list string :=
  ["ticker"; "mode"; "idea_source"; "timeframe"; "exit_intent"; "confidence"].

(** The validation loop: the first key of [keys] whose value in [body] is
    [undefined], [null] or the empty string, if there is one. *)
Fixpoint firstMissing (body : JsVal) (keys : list string) : Result (option string) :=
  match keys with
  | [] => Ok None
  | k :: keys' =>
      v ← getE body k;
      if negb (is_defined v) || nullish v || is_str v ""
      then Ok (Some k)
      else firstMissing body keys'
  end.

Definition rowOf (body : JsVal) : gmap string JsVal :=
  let entry_reasons :=
    if isArray (get body "entry_reasons")
    then JArr (take 2 (items_of (get body "entry_reasons")))
    else JArr [] in
  obj [("ticker", get body "ticker");
       ("mode", get body "mode");
       ("idea_source", get body "idea_source");
       ("timeframe", get body "timeframe");
       ("entry_reasons", entry_reasons);
       ("exit_intent", get body "exit_intent");
       ("confidence", JNum (ToNumber (get body "confidence")));
       ("notes", get body "notes" ?? JNull);
       ("scan_run_id", get body "scan_run_id" ?? JNull);
       ("signal_id", get body "signal_id" ?? JNull)].

(** The handler, as the pair of the rows it has had the store insert into
    [teach_labels] without an error and of its answer. *)
Definition POST (e : Env) (st : TeachStore) (req : Request)
  : list (gmap string JsVal) * Result Response :=
  match getSupabase e with
  | Throw x => ([], Throw x)
  | Ok _ =>
      if negb (requireTeachToken e req)
      then ([], Ok (respond_with 401 [("error", JStr "unauthorized")]))
      else
        match json req with
        | Throw x => ([], Throw x)
        | Ok body =>
            match firstMissing body required with
            | Throw x => ([], Throw x)
            | Ok (Some k) =>
                ([], Ok (respond_with 400 [("error", JStr ("missing " +:+ k))]))
            | Ok None =>
                let row := rowOf body in
                match insert_label st row with
                | Rejected x => ([], Throw x)
                | Resolved data (Some message) =>
                    ([], Ok (respond_with 500 [("error", JStr message)]))
                | Resolved data None =>
                    ([row],
                     id ← getE data "id";
                     Ok (respond [("ok", JBool true); ("id", id)]))
                end
            end
        end
  end.
End WithBuiltins.
End TeachLabel.

(** * [app/api/ingest-scan/route.ts] *)

Record IngestStore := {
  insert_scan_run : JsVal → Outcome JsVal;
  insert_signals : list JsVal → Outcome unit
}.

(** [/^Bearer\s+/i]: the white space of a header value. *)
Definition is_space (c : ascii) : bool :=
  let n := nat_of_ascii c in
  (Nat.leb 9 n && Nat.leb n 13) || Nat.eqb n 32 || Nat.eqb n 160.

Definition lower (c : ascii) : ascii :=
  let n := nat_of_ascii c in
  if Nat.leb 65 n && Nat.leb n 90 then ascii_of_nat (n + 32) else c.

Fixpoint drop_prefix_ci (p s : string) : option string :=
  match p, s with
  | EmptyString, _ => Some s
  | String a p', String b s' =>
      if bool_decide (lower a = lower b) then drop_prefix_ci p' s' else None
  | String _ _, EmptyString => None
  end.

Fixpoint drop_spaces (s : string) : string :=
  match s with
  | String c s' => if is_space c then drop_spaces s' else s
  | EmptyString => s
  end.

(** [s.replace(/^Bearer\s+/i, "")] *)
Definition strip_bearer (s : string) : string :=
  match drop_prefix_ci "bearer" s with
  | Some (String c rest) => if is_space c then drop_spaces rest else s
  | _ => s
  end.

Module IngestScan.
Section WithBuiltins.
Context {B : Builtins}.

Definition getSupabase (e : Env) : Result unit :=
  if unset (SUPABASE_URL e) || unset (SUPABASE_SERVICE_ROLE_KEY e)
  then Throw (Error "Missing SUPABASE_URL / SUPABASE_SERVICE_ROLE_KEY")
  else Ok tt.

Definition assertAuth (e : Env) (req : Request) : Result unit :=
  let want := INGEST_TOKEN e in
  if unset want then Ok tt (* dev mode: no token set *)
  else
    let got :=
      match headers req !! "x-ingest-token" with
      | Some t => t
      | None => default "" (strip_bearer <$> headers req !! "authorization")
      end in
    if negb (bool_decide (Some got = want))
    then Throw (Error "Unauthorized ingest")
    else Ok tt.

Definition POST (e : Env) (st : IngestStore) (req : Request) : Result Response :=
  try_catch
    (_ ← assertAuth e req;
     _ ← getSupabase e;
     payload ← json req;
     let scan_runs := opt payload "scan_runs" in
     let signals := opt payload "signals" in
     if negb (truthy scan_runs) || negb (truthy signals) || negb (isArray signals)
     then Ok (respond_with 400
                [("error", JStr "Invalid payload: expected { scan_runs, signals[] }")])
     else
       match insert_scan_run st scan_runs with
       | Rejected x => Throw x
       | Resolved scanRun (Some message) =>
           Ok (respond_with 500 [("error", JStr message)])
       | Resolved scanRun None =>
           rows ← mapR (λ s, id ← getE scanRun "id";
                             Ok (JObj (spread s ∪ obj [("scan_run_id", id)])))
                       (items_of signals);
           match insert_signals st rows with
           | Rejected x => Throw x
           | Resolved _ (Some message) =>
               Ok (respond_with 500 [("error", JStr message)])
           | Resolved _ None =>
               id ← getE scanRun "id";
               Ok (respond [("ok", JBool true);
                            ("scan_run_id", id);
                            ("inserted", JNum (of_nat (length rows)))])
           end
       end)
    (λ x, Ok (respond_with 401 [("error", JStr (message_of x))])).
End WithBuiltins.
End IngestScan.

(** The second handler kept in the same file: the check is written inline. *)
Module IngestScanInline.
Section WithBuiltins.
Context {B : Builtins}.

Definition getSupabase (e : Env) : Result unit :=
  if unset (SUPABASE_URL e) || unset (SUPABASE_SERVICE_ROLE_KEY e)
  then Throw (Error "Supabase env vars missing (SUPABASE_URL / SUPABASE_SERVICE_ROLE_KEY)")
  else Ok tt.

(** [!process.env.INGEST_TOKEN || token !== process.env.INGEST_TOKEN] *)
Definition unauthorized (e : Env) (req : Request) : bool :=
  let token := replace_first "Bearer " "" <$> headers req !! "authorization" in
  unset (INGEST_TOKEN e) || negb (bool_decide (token = INGEST_TOKEN e)).

Definition POST (e : Env) (st : IngestStore) (req : Request) : Result Response :=
  _ ← getSupabase e;
  if unauthorized e req
  then Ok (respond_with 401 [("error", JStr "unauthorized")])
  else
    body ← json req;
    as_of ← getE body "as_of";
    let signals := get body "signals" in
    if negb (truthy as_of) || negb (isArray signals)
    then Ok (respond_with 400 [("error", JStr "bad payload")])
    else
      match insert_scan_run st
              (JObj (obj [("as_of", as_of);
                          ("source", get body "source" ?? JStr "unknown");
                          ("interval", get body "interval" ?? JStr "1d");
                          ("history_years", get body "history_years" ?? JNum (Fin 5));
                          ("auto_thresholds", get body "auto_thresholds" ?? JObj ∅)]))
      with
      | Rejected x => Throw x
      | Resolved scanRun (Some message) =>
          Ok (respond_with 500 [("error", JStr message)])
      | Resolved scanRun None =>
          rows ← mapR (λ s, id ← getE scanRun "id";
                            Ok (JObj (spread s ∪ obj [("scan_run_id", id)])))
                      (items_of signals);
          match insert_signals st rows with
          | Rejected x => Throw x
          | Resolved _ (Some message) =>
              Ok (respond_with 500 [("error", JStr message)])
          | Resolved _ None =>
              id ← getE scanRun "id";
              Ok (respond [("ok", JBool true); ("scan_run_id", id)])
          end
      end.
End WithBuiltins.
End IngestScanInline.

(** The third handler of the file: what is configured, as booleans. *)
Module IngestHealth.
(** [Boolean(process.env.X)] *)
Definition isSet (v : option string) : bool := negb (unset v).

Definition GET (e : Env) : Response :=
  respond [("ok", JBool true);
           ("hasSupabaseUrl", JBool (isSet (SUPABASE_URL e)));
           ("hasServiceRole", JBool (isSet (SUPABASE_SERVICE_ROLE_KEY e)));
           ("hasIngest", JBool (isSet (INGEST_TOKEN e)))].
End IngestHealth.

(** * [app/page.tsx]: ranking for display, selection and the level panel *)

Module PageView.
Section WithBuiltins.
Context {B : Builtins}.

(** The value [av] (or [bv]) the comparator of [sorted] reads off an
    enriched signal for the key [sortBy]. *)
Definition sortValue (key : string) (a : JsVal) : number :=
  if bool_decide (key = "prob") then Page.num (get a "probability") (Fin 0)
  else if bool_decide (key = "conf") then Page.num (get a "confidence") (Fin 0)
  else if bool_decide (key = "rr") then Page.num (get a "__rr") (Fin 0)
  else Page.num (get a "__ev") (Fin (-999)).

(** [[...enriched].sort((a, b) => bv - av)] *)
Definition sorted (sortBy : string) (enriched : list JsVal) : list JsVal :=
  array_sort (λ a b, num_sub (sortValue sortBy b) (sortValue sortBy a)) enriched.

(** [selected] is a ticker or [null]; [!selected] also holds of the empty
    string. *)
Definition selectedSignal (selected : option string) (sorted : list JsVal) : JsVal :=
  let first := get0 (JArr sorted) ?? JNull in
  match selected with
  | None => first
  | Some ticker =>
      if bool_decide (ticker = "") then first
      else
        default JUndefined
          (List.find (λ s, is_str (get s "ticker") ticker) sorted) ?? first
  end.



End WithBuiltins.
End PageView.

(** * [app/teach/page.tsx]: the state updates of the form *)

Module TeachPage.
(** The updater [toggleReason(r)] applies to the chosen entry reasons. *)
Definition toggleReason (r : string) (prev : list string) : list string :=
  if bool_decide (r ∈ prev) then filter (λ x, x ≠ r) prev
  else if bool_decide (2 ≤ length prev) then prev (* cap at 2 *)
  else prev ++ [r].

(** The updaters of the arrow keys, on the index [x] into [candidates]:
    [Math.max(x - 1, 0)] and [Math.min(x + 1, candidates.length - 1)]. *)
Definition arrowLeft (x : number) : number :=
  Math_max (num_sub x (Fin 1)) (Fin 0).

Definition arrowRight (candidates : nat) (x : number) : number :=
  Math_min (num_add x (Fin 1)) (num_sub (of_nat candidates) (Fin 1)).
End TeachPage.

(** * A sample engine

    An instance of [Builtins] to run the code on concrete inputs.  It parses
    plain decimal integers (the empty string is 0), compares strings by code
    unit, and gives fixed answers where the inputs below never look. *)

Module Engine.
Definition digit (c : ascii) : option Z :=
  let n := nat_of_ascii c in
  if Nat.leb 48 n && Nat.leb n 57 then Some (Z.of_nat (n - 48)) else None.

Fixpoint digits (s : string) (acc : Z) : option Z :=
  match s with
  | EmptyString => Some acc
  | String c s' =>
      match digit c with
      | Some d => digits s' (10 * acc + d)%Z
      | None => None
      end
  end.

Definition parse (s : string) : number :=
  match s with
  | EmptyString => Fin 0
  | String "-" (String c s') =>
      match digits (String c s') 0 with
      | Some n => Fin (inject_Z (- n))
      | None => NaN
      end
  | _ =>
      match digits s 0 with
      | Some n => Fin (inject_Z n)
      | None => NaN
      end
  end.

Definition compare_strings (a b : string) : number :=
  match String.compare a b with
  | Lt => Fin (-1)
  | Eq => Fin 0
  | Gt => Fin 1
  end.

#[export] Instance sample : Builtins := {|
  StringToNumber := parse;
  ObjectToNumber := λ _, NaN;
  NumberToString := λ _, "NaN";
  ObjectToString := λ _, "[object Object]";
  typeErrorMessage := "Cannot read properties of null";
  localeCompare := compare_strings
|}.
End Engine.

(** * The vocabulary of the properties *)

(** A property holds a number or nothing. *)
Definition settled (v : JsVal) : Prop :=
  is_defined v = true → ∃ n, v = JNum n.

(** What [SignalsRoute.normalizeEntry] leaves behind. *)
Definition coerced (o : JsVal) : Prop :=
  settled (get o "trigger")
  ∧ settled (get o "price")
  ∧ settled (get (get o "zone") "low")
  ∧ settled (get (get o "zone") "high").

(** [s] contains [pat]. *)
Definition contains (s pat : string) : Prop :=
  ∃ pre post, s = pre +:+ pat +:+ post.

(** [a < b] and [a === b] on numbers, as propositions. *)
Definition num_lt (a b : number) : Prop := num_ltb a b = true.

Definition num_same (a b : number) : Prop := num_eqb a b = true.

(** The lexicographic order on triples of numbers. *)
Definition lex_le (k1 k2 : number * number * number) : Prop :=
  let '(r1, x1, y1) := k1 in
  let '(r2, x2, y2) := k2 in
  num_lt r1 r2
  ∨ (num_same r1 r2
     ∧ (num_lt x1 x2
        ∨ (num_same x1 x2 ∧ (num_lt y1 y2 ∨ num_same y1 y2)))).

Section RankingKey.
Context {B : Builtins}.

(** [Number(row.rs_vs_spy ?? 0)] and [Number(row.vol_z ?? 0)] *)
Definition rsOf (row : gmap string JsVal) : number :=
  ToNumber (get (JObj row) "rs_vs_spy" ?? JNum (Fin 0)).

Definition vzOf (row : gmap string JsVal) : number :=
  ToNumber (get (JObj row) "vol_z" ?? JNum (Fin 0)).

(** The sort key of the specification, [(labelRank, -rs_vs_spy, -vol_z)]. *)
Definition rankKey (row : gmap string JsVal) : number * number * number :=
  (Candidates.labelRank (get (JObj row) "label"),
   num_neg (rsOf row), num_neg (vzOf row)).

(** Relative strength and volume z are numbers once coerced. *)
Definition numeric (row : gmap string JsVal) : Prop :=
  is_nan (rsOf row) = false ∧ is_nan (vzOf row) = false.

End RankingKey.

(** The store is configured. *)
Definition configured (e : Env) : Prop :=
  unset (SUPABASE_URL e) = false ∧ unset (SUPABASE_SERVICE_ROLE_KEY e) = false.

(** The [source] of an answer. *)
Definition source (r : Response) : JsVal := get (JObj (body r)) "source".

(** [card.plan?.entry?.type], [card.plan?.exit_if_wrong?.stop] and
    [card.plan?.targets] of a card object. *)
Definition planEntry (m : gmap string JsVal) : JsVal :=
  opt (get (JObj m) "plan") "entry".

Definition planStop (m : gmap string JsVal) : JsVal :=
  opt (opt (get (JObj m) "plan") "exit_if_wrong") "stop".

Definition planTargets (m : gmap string JsVal) : JsVal :=
  opt (get (JObj m) "plan") "targets".

(** No target of the plan is [null] or [undefined]. *)
Definition targets_readable (m : gmap string JsVal) : Prop :=
  Forall (λ t, nullish t = false) (items_of (planTargets m)).

(** A card object whose plan targets can be read. *)
Definition readable_card (c : JsVal) : Prop :=
  ∃ m, c = JObj m ∧ targets_readable m.

(** The properties of the object [extractAi] builds, and those the route
    writes into a row of the store. *)
Definition ai_keys : list string :=
  ["probability"; "confidence"; "why"; "chosen_stop"; "stop_ladder"; "runtime_ms"].

Definition row_keys : list string :=
  ["entry"; "stop"; "targets"; "probability"; "confidence"; "why";
   "chosen_stop"; "stop_ladder"].



(** The order of the display: [a] is not ranked below [b] when its value
    under the sort key is at least that of [b]. *)
Section DisplayOrder.
Context {B : Builtins}.

End DisplayOrder.


(** The columns of a row of [teach_labels]. *)
Definition label_columns : list string :=
  ["ticker"; "mode"; "idea_source"; "timeframe"; "entry_reasons"; "exit_intent";
   "confidence"; "notes"; "scan_run_id"; "signal_id"].


(** * Sample inputs *)

(** The number [z]. *)
Definition num_of (z : Z) : JsVal := JNum (Fin (inject_Z z)).

(** A signal with a breakout entry at 100, a stop at 90, a first target at
    120 and no probability. *)
Definition signal_100_90_120 : gmap string JsVal :=
  obj [("ticker", JStr "ABC");
       ("entry", JObj (obj [("type", JStr "breakout_confirmation");
                            ("trigger", JNum (Fin 100))]));
       ("stop", JObj (obj [("price", JNum (Fin 90))]));
       ("targets", JArr [JObj (obj [("price", JNum (Fin 120))])])].

(** A candidate row with the given label, relative strength and volume z. *)
Definition candidate (label : string) (rs vz : JsVal) : gmap string JsVal :=
  obj [("ticker", JStr label); ("label", JStr label);
       ("rs_vs_spy", rs); ("vol_z", vz)].

(** The card of the specification's scenario. *)
Definition card_ABC : gmap string JsVal :=
  obj [("ticker", JStr "ABC");
       ("price", num_of 100);
       ("plan", JObj (obj
          [("entry", JObj (obj [("type", JStr "value_zone");
                                ("zone", JObj (obj [("low", num_of 95);
                                                    ("high", num_of 98)]))]));
           ("exit_if_wrong", JObj (obj [("stop", num_of 90)]));
           ("targets", JArr [JObj (obj [("price", num_of 110)])])]))].

(** A card that carries a [label] and a card-level [stop] of its own next to
    its [labels] and its plan. *)
Definition card_tagged : gmap string JsVal :=
  obj [("ticker", JStr "XYZ");
       ("price", num_of 100);
       ("labels", JArr [JStr "READY_CONFIRMED"]);
       ("label", JStr "SCANNER_TAG");
       ("stop", JObj (obj [("price", num_of 5)]));
       ("plan", JObj (obj
          [("entry", JObj (obj [("type", JStr "breakout_confirmation");
                                ("trigger", num_of 101)]));
           ("exit_if_wrong", JObj (obj [("stop", num_of 90)]));
           ("targets", JArr [JObj (obj [("price", num_of 110)])])]))].

Definition cards_file (as_of : string) (cards : list (gmap string JsVal)) : JsVal :=
  JObj (obj [("as_of", JStr as_of); ("cards", JArr (JObj <$> cards))]).

Definition env_configured : Env :=
  {| SUPABASE_URL := Some "https://db.example";
     SUPABASE_SERVICE_ROLE_KEY := Some "service-key";
     INGEST_TOKEN := None;
     TEACH_TOKEN := None |}.

Definition env_empty : Env :=
  {| SUPABASE_URL := None;
     SUPABASE_SERVICE_ROLE_KEY := None;
     INGEST_TOKEN := None;
     TEACH_TOKEN := None |}.

(** A disk where [ready.json] is missing from both snapshot directories and
    the two other snapshots hold one card each. *)
Definition disk_without_ready (path : string) : Result JsVal :=
  if bool_decide (path = "market_ai_kit/output/early.json")
     || bool_decide (path = "public/data/early.json")
  then Ok (cards_file "2026-01-02T00:00:00.000Z" [card_tagged])
  else if bool_decide (path = "market_ai_kit/output/watch.json")
          || bool_decide (path = "public/data/watch.json")
  then Ok (cards_file "2026-01-01T00:00:00.000Z" [card_ABC])
  else Throw (Error "ENOENT: no such file or directory").

Definition row_1 : gmap string JsVal :=
  obj [("id", JStr "s1"); ("ticker", JStr "ABC"); ("label", JStr "WATCH");
       ("created_at", JStr "2026-01-03T00:00:00.000Z");
       ("entry", JObj (obj [("trigger", JStr "101")]));
       ("stop", JObj (obj [("price", num_of 90)]));
       ("targets", JArr [JObj (obj [("price", num_of 110)])])].

(** The store answers with one row; the store answers with an error; no
    store is configured. *)
Definition world_up : World :=
  {| env := env_configured;
     signals_table := λ _, Resolved (Some [row_1]) None;
     read_json := disk_without_ready;
     now := "2026-01-05T00:00:00.000Z" |}.

Definition world_error : World :=
  {| env := env_configured;
     signals_table := λ _, Resolved None (Some "relation signals does not exist");
     read_json := λ path,
       if bool_decide (path = "market_ai_kit/output/ready.json")
          || bool_decide (path = "public/data/ready.json")
       then Ok (cards_file "2026-01-03T00:00:00.000Z" [])
       else disk_without_ready path;
     now := "2026-01-05T00:00:00.000Z" |}.

Definition world_unconfigured : World :=
  {| env := env_empty;
     signals_table := λ _, Rejected (Error "unreachable");
     read_json := disk_without_ready;
     now := "2026-01-05T00:00:00.000Z" |}.

Definition request (params : list (string * string)) : Request :=
  {| searchParams := list_to_map params;
     headers := ∅;
     json := Throw (Error "Unexpected end of JSON input") |}.

Definition teach_store : TeachStore :=
  {| latest_scan_run :=
       Resolved (JObj (obj [("id", JStr "run-1");
                            ("as_of", JStr "2026-01-03T00:00:00.000Z")])) None;
     signals_of_run := λ _,
       Resolved (Some [candidate "WATCH" (num_of 1) (num_of 0);
                       candidate "READY_CONFIRMED" (num_of 1) (num_of 0)]) None;
     labeled_tickers := λ _ _, Resolved (Some []) None;
     insert_label := λ _, Resolved (JObj (obj [("id", JStr "label-1")])) None |}.

Definition env_with_teach_token : Env :=
  {| SUPABASE_URL := Some "https://db.example";
     SUPABASE_SERVICE_ROLE_KEY := Some "service-key";
     INGEST_TOKEN := None;
     TEACH_TOKEN := Some "s3cret" |}.

(** A label request with the given bearer token and confidence. *)
Definition label_request (token : string) (confidence : JsVal) : Request :=
  {| searchParams := ∅;
     headers := {[ "authorization" := "Bearer " +:+ token ]};
     json := Ok (JObj (obj [("ticker", JStr "ABC");
                            ("mode", JStr "conservative");
                            ("idea_source", JStr "scan");
                            ("timeframe", JStr "swing");
                            ("entry_reasons", JArr [JStr "a"; JStr "b"; JStr "c"]);
                            ("exit_intent", JStr "stop");
                            ("confidence", confidence)])) |}.

(** An environment with the ingest secret set, and a request with the given
    headers and no body. *)
Definition env_with_ingest_token : Env :=
  {| SUPABASE_URL := Some "https://db.example";
     SUPABASE_SERVICE_ROLE_KEY := Some "service-key";
     INGEST_TOKEN := Some "s3cret";
     TEACH_TOKEN := None |}.

Definition request_with (hs : list (string * string)) : Request :=
  {| searchParams := ∅;
     headers := list_to_map hs;
     json := Throw (Error "Unexpected end of JSON input") |}.

(** A store that accepts every scan run and every batch of signals, and an
    ingest request with the secret, one scan run and two signals. *)
Definition ingest_store : IngestStore :=
  {| insert_scan_run := λ _, Resolved (JObj (obj [("id", JStr "run-1")])) None;
     insert_signals := λ _, Resolved tt None |}.

Definition ingest_request : Request :=
  {| searchParams := ∅;
     headers := {[ "x-ingest-token" := "s3cret" ]};
     json := Ok (JObj (obj [("scan_runs", JObj (obj [("as_of", JStr "2026-01-03")]));
                            ("signals", JArr [JObj (obj [("ticker", JStr "ABC")]);
                                              JObj (obj [("ticker", JStr "XYZ");
                                                         ("scan_run_id", JStr "own")])])])) |}.

(** * Properties *)

(** ** Reading and writing properties *)

Lemma get_lookup (m : gmap string JsVal) (k : string) (v : JsVal) :
  get (JObj m) k = v → is_defined v = true → m !! k = Some v.
Proof.
  unfold get. destruct (m !! k) as [u|]; simpl; intros <-; [done|].
  discriminate.
Qed.

Lemma get_insert_eq (m : gmap string JsVal) (k : string) (v : JsVal) :
  get (JObj (<[k := v]> m)) k = v.
Proof. unfold get. by rewrite lookup_insert_eq. Qed.

Lemma get_insert_ne (m : gmap string JsVal) (j k : string) (v : JsVal) :
  j ≠ k → get (JObj (<[j := v]> m)) k = get (JObj m) k.
Proof. intros. unfold get. by rewrite lookup_insert_ne. Qed.

Lemma set_same (m : gmap string JsVal) (k : string) (v : JsVal) :
  get (JObj m) k = v → is_defined v = true → <[k := v]> m = m.
Proof. intros Hg Hd. apply insert_id. by apply get_lookup. Qed.

(** ** Idempotence of the entry coercion *)

Section EntryCoercion.
Context {B : Builtins}.

Lemma get_assign (o : JsVal) (j k : string) (x : JsVal) :
  is_defined (get o j) = true →
  get (assign o j x) k = if bool_decide (j = k) then x else get o k.
Proof.
  destruct o as [| | | | | |m]; try discriminate. intros _. cbn [assign].
  case_bool_decide as E; [subst; apply get_insert_eq | by apply get_insert_ne].
Qed.

Lemma assign_same (o : JsVal) (k : string) :
  is_defined (get o k) = true → assign o k (get o k) = o.
Proof.
  destruct o as [| | | | | |m]; try discriminate. intros Hd. cbn [assign].
  f_equal. by apply set_same.
Qed.

Lemma get_coerceProp (o : JsVal) (j k : string) :
  get (SignalsRoute.coerceProp o j) k
  = if bool_decide (j = k)
    then (if is_defined (get o j) then JNum (ToNumber (get o j)) else get o j)
    else get o k.
Proof.
  unfold SignalsRoute.coerceProp.
  destruct (is_defined (get o j)) eqn:E.
  - by rewrite get_assign.
  - by case_bool_decide; subst.
Qed.

Lemma settled_coerceProp (o : JsVal) (k : string) :
  settled (get (SignalsRoute.coerceProp o k) k).
Proof.
  rewrite get_coerceProp, bool_decide_eq_true_2 by done.
  destruct (is_defined (get o k)) eqn:E; intros H; [eauto | congruence].
Qed.

Lemma coerceProp_settled (o : JsVal) (k : string) :
  settled (get o k) → SignalsRoute.coerceProp o k = o.
Proof.
  intros Hs. unfold SignalsRoute.coerceProp.
  destruct (is_defined (get o k)) eqn:E; [|done].
  destruct (Hs E) as [n Hn]. rewrite Hn. cbn [ToNumber].
  rewrite <- Hn. by apply assign_same.
Qed.

Lemma normalizeEntry_fixed (m : gmap string JsVal) :
  coerced (JObj m) → SignalsRoute.normalizeEntry (JObj m) = JObj m.
Proof.
  intros (Ht & Hp & Hl & Hh). unfold SignalsRoute.normalizeEntry.
  cbn [truthy negb spread].
  rewrite (coerceProp_settled _ "trigger" Ht).
  destruct (truthy (get (JObj m) "zone") && is_object (get (JObj m) "zone")) eqn:Ez;
    [|by apply coerceProp_settled].
  rewrite (coerceProp_settled _ "low" Hl), (coerceProp_settled _ "high" Hh).
  rewrite assign_same; [by apply coerceProp_settled|].
  apply andb_true_iff in Ez as [Ez _]. by destruct (get (JObj m) "zone").
Qed.

Lemma normalizeEntry_coerced (e : JsVal) :
  ∃ m, SignalsRoute.normalizeEntry e = JObj m
       ∧ coerced (SignalsRoute.normalizeEntry e).
Proof.
  unfold SignalsRoute.normalizeEntry.
  destruct (truthy e); cbn [negb].
  { set (o1 := SignalsRoute.coerceProp (JObj (spread e)) "trigger").
    set (o2 := if truthy (get o1 "zone") && is_object (get o1 "zone")
               then _ else o1).
    assert (Hobj : ∀ o k, (∃ m, o = JObj m) → ∃ m, SignalsRoute.coerceProp o k = JObj m).
    { intros o k [m ->]. unfold SignalsRoute.coerceProp.
      destruct (is_defined _); cbn [assign]; eauto. }
    assert (H1 : ∃ m, o1 = JObj m) by (apply Hobj; eauto).
    assert (H2 : ∃ m, o2 = JObj m).
    { unfold o2. destruct (_ && _); [|done].
      destruct H1 as [m ->]. cbn [assign]. eauto. }
    destruct (Hobj o2 "price" H2) as [m' Hm']. exists m'. split; [exact Hm'|].
    clear m' Hm'.
    assert (Ht2 : settled (get o2 "trigger")).
    { unfold o2. destruct (_ && _) eqn:Ez; [|apply settled_coerceProp].
      destruct H1 as [m Hm]. rewrite Hm. cbn [assign].
      rewrite get_insert_ne by done. rewrite <- Hm. apply settled_coerceProp. }
    assert (Hz2 : settled (get (get o2 "zone") "low")
                  ∧ settled (get (get o2 "zone") "high")).
    { unfold o2. destruct (_ && _) eqn:Ez.
      - destruct H1 as [m Hm]. rewrite Hm. cbn [assign].
        rewrite get_insert_eq. rewrite <- Hm. split.
        + rewrite get_coerceProp, bool_decide_eq_false_2 by done.
          apply settled_coerceProp.
        + apply settled_coerceProp.
      - apply andb_false_iff in Ez.
        assert (get (get o1 "zone") "low" = JUndefined
                ∧ get (get o1 "zone") "high" = JUndefined) as [-> ->].
        { destruct (get o1 "zone") as [| | | | | |z]; try done.
          destruct Ez; discriminate. }
        split; intros ?; discriminate. }
    repeat split.
    - by rewrite get_coerceProp, bool_decide_eq_false_2.
    - apply settled_coerceProp.
    - rewrite get_coerceProp, bool_decide_eq_false_2 by done. apply Hz2.
    - rewrite get_coerceProp, bool_decide_eq_false_2 by done. apply Hz2. }
  exists ∅. split; [done|]. repeat split; intros ?; discriminate.
Qed.

Lemma normalizeEntry_patch_idempotent (e : JsVal) :
  SignalsRoutePatch.normalizeEntry (SignalsRoutePatch.normalizeEntry e)
  = SignalsRoutePatch.normalizeEntry e.
Proof.
  assert (Hprice : ∀ m n, get (JObj m) "price" = JNum n →
            SignalsRoutePatch.normalizeEntry (JObj m) = JObj m).
  { intros m n Hp. unfold SignalsRoutePatch.normalizeEntry.
    cbn [truthy negb is_number]. by rewrite Hp. }
  remember (SignalsRoutePatch.normalizeEntry e) as r eqn:Hr.
  unfold SignalsRoutePatch.normalizeEntry in Hr.
  destruct (truthy e) eqn:Et; cbn [negb] in Hr.
  2:{ subst r. reflexivity. }
  destruct (is_number e) eqn:En.
  { destruct e as [| | |n| | |]; try discriminate.
    subst r. apply (Hprice _ n). reflexivity. }
  destruct (is_number (get e "price")) eqn:Ep.
  { subst r. unfold SignalsRoutePatch.normalizeEntry. by rewrite Et, En, Ep. }
  destruct (is_number (get e "trigger")) eqn:Eg.
  { destruct (get e "trigger") as [| | |n| | |] eqn:Etr; try discriminate.
    subst r. apply (Hprice _ n). apply get_insert_eq. }
  destruct (truthy (get e "zone") && is_number (get (get e "zone") "low")
            && is_number (get (get e "zone") "high")) eqn:Ez.
  { subst r. eapply Hprice. apply get_insert_eq. }
  subst r. unfold SignalsRoutePatch.normalizeEntry. by rewrite Et, En, Ep, Eg, Ez.
Qed.

(** C9. The entry-coercion pass is idempotent, in the signals route and in
    its patched variant: for every entry value [e],
    [normalizeEntry (normalizeEntry e) = normalizeEntry e]. *)
Theorem C9_normalizeEntry_idempotent (e : JsVal) :
  SignalsRoute.normalizeEntry (SignalsRoute.normalizeEntry e)
  = SignalsRoute.normalizeEntry e
  ∧ SignalsRoutePatch.normalizeEntry (SignalsRoutePatch.normalizeEntry e)
    = SignalsRoutePatch.normalizeEntry e.
Proof.
  split.
  - destruct (normalizeEntry_coerced e) as (m & Hm & Hc).
    rewrite Hm in Hc |- *. by apply normalizeEntry_fixed.
  - apply normalizeEntry_patch_idempotent.
Qed.
End EntryCoercion.

(** The coercion on an entry read from the store, and the synthesised price
    of the patched route. *)
Example normalizeEntry_strings :
  SignalsRoute.normalizeEntry (B := Engine.sample)
    (JObj (obj [("trigger", JStr "101");
                ("zone", JObj (obj [("low", JStr "95"); ("high", num_of 98)]))]))
  = JObj (obj [("trigger", num_of 101);
               ("zone", JObj (obj [("low", num_of 95); ("high", num_of 98)]))])
  ∧ SignalsRoute.normalizeEntry (B := Engine.sample) JNull = JObj ∅.
Proof. split; reflexivity. Qed.

Example normalizeEntry_midpoint :
  SignalsRoutePatch.normalizeEntry (B := Engine.sample)
    (JObj (obj [("zone", JObj (obj [("low", num_of 95); ("high", num_of 98)]))]))
  = JObj (obj [("zone", JObj (obj [("low", num_of 95); ("high", num_of 98)]));
               ("price", JNum (Fin ((95 + 98) / 2)))])
  ∧ SignalsRoutePatch.normalizeEntry (B := Engine.sample)
      (JObj (obj [("trigger", num_of 101)]))
    = JObj (obj [("trigger", num_of 101); ("price", num_of 101)])
  ∧ SignalsRoutePatch.normalizeEntry (B := Engine.sample) JNull
    = JObj (obj [("price", JNull)]).
Proof. repeat split. Qed.

(** ** Numbers *)

Lemma Qltb_lt (x y : Q) : Qltb x y = true ↔ (x < y)%Q.
Proof.
  unfold Qltb. rewrite negb_true_iff. split.
  - intros H. apply Qnot_le_lt. intros Hle.
    apply Qle_bool_iff in Hle. congruence.
  - intros H. destruct (Qle_bool y x) eqn:E; [|done].
    apply Qle_bool_iff in E. by apply Qlt_not_le in H.
Qed.

Lemma Qltb_ge (x y : Q) : Qltb x y = false ↔ (y <= x)%Q.
Proof.
  unfold Qltb. rewrite negb_false_iff. apply Qle_bool_iff.
Qed.

Lemma Qeq_bool_false (x y : Q) : Qeq_bool x y = false ↔ ¬ (x == y)%Q.
Proof.
  split.
  - intros H E. apply Qeq_bool_iff in E. congruence.
  - intros H. destruct (Qeq_bool x y) eqn:E; [|done].
    apply Qeq_bool_iff in E. done.
Qed.

(** ** The derived metrics *)

Section Metrics.
Context {B : Builtins}.







End Metrics.




(** ** Order on numbers *)

Ltac q_bool :=
  repeat match goal with
  | H : Qltb _ _ = true |- _ => apply Qltb_lt in H
  | H : Qltb _ _ = false |- _ => apply Qltb_ge in H
  | H : Qeq_bool _ _ = true |- _ => apply Qeq_bool_iff in H
  | H : Qeq_bool _ _ = false |- _ => apply Qeq_bool_false in H
  | |- Qltb _ _ = true => apply Qltb_lt
  | |- Qltb _ _ = false => apply Qltb_ge
  | |- Qeq_bool _ _ = true => apply Qeq_bool_iff
  | |- Qeq_bool _ _ = false => apply Qeq_bool_false
  end.

Lemma Qltb_sub_pos (x y : Q) : Qltb 0 (x + - y) = Qltb y x.
Proof.
  destruct (Qltb y x) eqn:E; q_bool; lra.
Qed.

Lemma Qltb_opp (x y : Q) : Qltb (- x) (- y) = Qltb y x.
Proof.
  destruct (Qltb y x) eqn:E; q_bool; lra.
Qed.

Lemma Qeq_bool_opp (x y : Q) : Qeq_bool (- x) (- y) = Qeq_bool x y.
Proof.
  destruct (Qeq_bool x y) eqn:E; q_bool; lra.
Qed.

(** The sign of a difference is the comparison of its terms. *)
Lemma num_sub_pos (a b : number) :
  num_gtb (num_sub a b) (Fin 0) = num_ltb b a.
Proof.
  destruct a as [|[]|x], b as [|[]|y]; try reflexivity.
  unfold num_gtb, num_sub. cbn [num_neg num_add num_ltb].
  apply Qltb_sub_pos.
Qed.

Lemma num_ltb_neg (a b : number) :
  num_ltb (num_neg a) (num_neg b) = num_ltb b a.
Proof.
  destruct a as [|[]|x], b as [|[]|y]; try reflexivity.
  apply Qltb_opp.
Qed.

Lemma num_eqb_neg (a b : number) :
  num_eqb (num_neg a) (num_neg b) = num_eqb a b.
Proof.
  destruct a as [|[]|x], b as [|[]|y]; try reflexivity.
  apply Qeq_bool_opp.
Qed.

Lemma num_ltb_trans (a b c : number) :
  num_ltb a b = true → num_ltb b c = true → num_ltb a c = true.
Proof.
  destruct a as [|[]|x], b as [|[]|y], c as [|[]|z]; cbn [num_ltb];
    try done.
  intros; q_bool; lra.
Qed.

Lemma num_eqb_sym (a b : number) : num_eqb a b = true → num_eqb b a = true.
Proof.
  destruct a as [|[]|x], b as [|[]|y]; cbn [num_eqb]; try done.
  intros; q_bool; lra.
Qed.

Lemma num_eqb_trans (a b c : number) :
  num_eqb a b = true → num_eqb b c = true → num_eqb a c = true.
Proof.
  destruct a as [|[]|x], b as [|[]|y], c as [|[]|z]; cbn [num_eqb];
    try done.
  intros; q_bool; lra.
Qed.

Lemma num_eqb_ltb (a b c : number) :
  num_eqb a b = true → num_ltb b c = true → num_ltb a c = true.
Proof.
  destruct a as [|[]|x], b as [|[]|y], c as [|[]|z]; cbn [num_eqb num_ltb];
    try done.
  intros; q_bool; lra.
Qed.

Lemma num_ltb_eqb (a b c : number) :
  num_ltb a b = true → num_eqb b c = true → num_ltb a c = true.
Proof.
  destruct a as [|[]|x], b as [|[]|y], c as [|[]|z]; cbn [num_eqb num_ltb];
    try done.
  intros; q_bool; lra.
Qed.

Lemma num_total (a b : number) :
  is_nan a = false → is_nan b = false →
  num_ltb a b = true ∨ num_eqb a b = true ∨ num_ltb b a = true.
Proof.
  destruct a as [|[]|x], b as [|[]|y]; cbn [is_nan num_eqb num_ltb];
    try done; auto.
  intros _ _.
  destruct (Qltb x y) eqn:E1; [auto|].
  destruct (Qltb y x) eqn:E2; [auto|].
  right; left. q_bool. lra.
Qed.

(** ** Sorting with a comparator *)

Section Sorting.
Context {A : Type} (cmp : A → A → number).
Context (dom : A → Prop) (le : A → A → Prop).
Hypothesis after : ∀ a b, dom a → dom b →
  num_gtb (cmp a b) (Fin 0) = true → le b a.
Hypothesis before : ∀ a b, dom a → dom b →
  num_gtb (cmp a b) (Fin 0) = false → le a b.
Hypothesis le_trans : ∀ a b c, le a b → le b c → le a c.

Lemma sort_insert_perm (x : A) (l : list A) :
  Permutation (sort_insert cmp x l) (x :: l).
Proof.
  induction l as [|y l IH]; cbn [sort_insert]; [done|].
  destruct (num_gtb (cmp x y) (Fin 0)); [|done].
  rewrite IH. apply perm_swap.
Qed.

Lemma array_sort_perm (l : list A) : Permutation (array_sort cmp l) l.
Proof.
  induction l as [|x l IH]; cbn [array_sort foldr]; [done|].
  rewrite sort_insert_perm. by constructor.
Qed.

Lemma sort_insert_sorted (x : A) (l : list A) :
  dom x → Forall dom l → StronglySorted le l →
  StronglySorted le (sort_insert cmp x l).
Proof.
  intros Hx Hl Hs. induction l as [|y l IH]; cbn [sort_insert].
  { repeat constructor. }
  inversion Hl as [|? ? Hy Hl']; subst.
  inversion Hs as [|? ? Hs' Hall]; subst.
  destruct (num_gtb (cmp x y) (Fin 0)) eqn:E.
  - constructor; [by apply IH|].
    rewrite (sort_insert_perm x l). constructor; [|done].
    by apply after.
  - constructor; [done|]. constructor; [by apply before|].
    eapply Forall_impl; [exact Hall|].
    intros z Hz. eapply le_trans; [|exact Hz]. by apply before.
Qed.


Lemma array_sort_sorted (l : list A) :
  Forall dom l → StronglySorted le (array_sort cmp l).
Proof.
  induction l as [|x l IH]; intros Hl; cbn [array_sort foldr].
  { constructor. }
  inversion Hl; subst.
  apply sort_insert_sorted; [done| |by apply IH].
  fold (array_sort cmp l). by rewrite array_sort_perm.
Qed.
End Sorting.

(** ** Substrings *)

Lemma drop_prefix_spec (p s r : string) :
  drop_prefix p s = Some r ↔ s = p +:+ r.
Proof.
  revert s. induction p as [|a p IH]; intros s; simpl.
  { split; [by intros [= ->] | by intros ->]. }
  destruct s as [|b s].
  { split; discriminate. }
  case_bool_decide as E.
  - subst b. rewrite IH. split; [by intros -> | by intros [= ->]].
  - split; [discriminate | intros [= -> _]; done].
Qed.

Lemma includes_contains (s pat : string) :
  includes s pat = true ↔ contains s pat.
Proof.
  induction s as [|c s IH]; cbn [includes].
  - destruct (drop_prefix pat EmptyString) as [r|] eqn:E.
    + split; [intros _|done]. apply drop_prefix_spec in E.
      by exists EmptyString, r.
    + split; [done|]. intros (pre & post & H).
      destruct pre; [|discriminate].
      apply (drop_prefix_spec pat EmptyString post) in H. congruence.
  - destruct (drop_prefix pat (String c s)) as [r|] eqn:E.
    + split; [intros _|done]. apply drop_prefix_spec in E.
      by exists EmptyString, r.
    + rewrite IH. split.
      * intros (pre & post & ->). by exists (String c pre), post.
      * intros (pre & post & H). destruct pre as [|c' pre].
        { apply (drop_prefix_spec pat (String c s) post) in H. congruence. }
        injection H as -> ->. by exists pre, post.
Qed.

(** ** The review-priority ranking *)

Section Ranking.
Context {B : Builtins}.

Lemma labelRank_not_nan (v : JsVal) : is_nan (Candidates.labelRank v) = false.
Proof.
  unfold Candidates.labelRank.
  destruct (is_str v _); [done|]. destruct (includes _ _); [done|].
  by destruct (is_str v _).
Qed.

Lemma labelRank_spec (l : string) :
  (Candidates.labelRank (JStr l) = Fin 0 ↔ l = "READY_CONFIRMED")
  ∧ (Candidates.labelRank (JStr l) = Fin 1 ↔ contains l "EARLY")
  ∧ (Candidates.labelRank (JStr l) = Fin 2 ↔ l = "WATCH")
  ∧ (Candidates.labelRank (JStr l) = Fin 3 ↔
       l ≠ "READY_CONFIRMED" ∧ ¬ contains l "EARLY" ∧ l ≠ "WATCH").
Proof.
  unfold Candidates.labelRank. cbn [is_str ToString].
  case_bool_decide as E1.
  { subst l. repeat split; try done; try discriminate.
    - intros H. apply includes_contains in H. discriminate.
    - intros (H & _). done. }
  destruct (includes l "EARLY") eqn:E2.
  { assert (contains l "EARLY") by by apply includes_contains.
    repeat split; try done; try discriminate.
    - intros ->. discriminate.
    - intros (_ & H' & _). done. }
  assert (¬ contains l "EARLY").
  { intros H. apply includes_contains in H. congruence. }
  case_bool_decide as E3; repeat split; try done; try discriminate.
  intros (_ & _ & H'). done.
Qed.

Lemma compare_after (a b : gmap string JsVal) :
  num_gtb (Candidates.compareCandidates a b) (Fin 0) = true →
  lex_le (rankKey b) (rankKey a).
Proof.
  unfold Candidates.compareCandidates, rankKey, lex_le, rsOf, vzOf, num_lt, num_same.
  destruct (num_eqb (Candidates.labelRank (get (JObj a) "label")) _) eqn:E1;
    cbn [negb].
  2:{ rewrite num_sub_pos. auto. }
  apply num_eqb_sym in E1.
  destruct (num_eqb (ToNumber (get (JObj a) "rs_vs_spy" ?? JNum (Fin 0))) _) eqn:E2;
    cbn [negb]; rewrite num_sub_pos, ?num_ltb_neg, ?num_eqb_neg.
  2:{ auto. }
  apply num_eqb_sym in E2. auto 6.
Qed.

Lemma compare_before (a b : gmap string JsVal) :
  numeric a → numeric b →
  num_gtb (Candidates.compareCandidates a b) (Fin 0) = false →
  lex_le (rankKey a) (rankKey b).
Proof.
  intros [Ha1 Ha2] [Hb1 Hb2].
  unfold Candidates.compareCandidates, rankKey, lex_le, num_lt, num_same.
  fold (rsOf a) (rsOf b) (vzOf a) (vzOf b).
  rewrite !num_ltb_neg, !num_eqb_neg.
  destruct (num_eqb (Candidates.labelRank (get (JObj a) "label")) _) eqn:E1;
    cbn [negb].
  2:{ rewrite num_sub_pos. intros E.
      destruct (num_total _ _ (labelRank_not_nan (get (JObj a) "label"))
                  (labelRank_not_nan (get (JObj b) "label")))
        as [H|[H|H]]; [auto | congruence | congruence]. }
  destruct (num_eqb (rsOf a) (rsOf b)) eqn:E2; cbn [negb];
    rewrite num_sub_pos; intros E.
  2:{ destruct (num_total _ _ Ha1 Hb1) as [H|[H|H]];
        [congruence | congruence | auto]. }
  destruct (num_total _ _ Ha2 Hb2) as [H|[H|H]];
    [congruence | auto 7 | auto 7].
Qed.

Lemma lex_le_trans (k1 k2 k3 : number * number * number) :
  lex_le k1 k2 → lex_le k2 k3 → lex_le k1 k3.
Proof.
  destruct k1 as [[r1 x1] y1], k2 as [[r2 x2] y2], k3 as [[r3 x3] y3].
  unfold lex_le, num_lt, num_same.
  intros [H1|(H1 & H1')] [H2|(H2 & H2')].
  - left. eauto using num_ltb_trans.
  - left. eauto using num_ltb_eqb.
  - left. eauto using num_eqb_ltb.
  - right. split; [eauto using num_eqb_trans|].
    destruct H1' as [H1'|(H1' & H1'')], H2' as [H2'|(H2' & H2'')].
    + left. eauto using num_ltb_trans.
    + left. eauto using num_ltb_eqb.
    + left. eauto using num_eqb_ltb.
    + right. split; [eauto using num_eqb_trans|].
      destruct H1'' as [H1''|H1''], H2'' as [H2''|H2''].
      * left. eauto using num_ltb_trans.
      * left. eauto using num_ltb_eqb.
      * left. eauto using num_eqb_ltb.
      * right. eauto using num_eqb_trans.
Qed.

(** C5. For every batch of candidates whose relative strength and volume
    z are numbers, the review-priority ranking returns the first 10 of an
    arrangement of the batch that is ordered by the triple
    [(labelRank, -rs_vs_spy, -vol_z)], where [labelRank] is 0 for
    ["READY_CONFIRMED"], 1 for a label containing ["EARLY"], 2 for
    ["WATCH"] and 3 otherwise; labels WATCH, READY_CONFIRMED,
    EARLY_BREAKOUT with equal rs and vol come out as READY_CONFIRMED,
    EARLY_BREAKOUT, WATCH. *)
Theorem C5_review_priority_ranking (signals : list (gmap string JsVal)) :
  Forall numeric signals →
  (∃ ordered,
      Candidates.sorted (Some signals) = take 10 ordered
      ∧ Permutation ordered signals
      ∧ StronglySorted (λ a b, lex_le (rankKey a) (rankKey b)) ordered)
  ∧ length (Candidates.sorted (Some signals)) = Nat.min 10 (length signals)
  ∧ (∀ l : string,
       (Candidates.labelRank (JStr l) = Fin 0 ↔ l = "READY_CONFIRMED")
       ∧ (Candidates.labelRank (JStr l) = Fin 1 ↔ contains l "EARLY")
       ∧ (Candidates.labelRank (JStr l) = Fin 2 ↔ l = "WATCH")
       ∧ (Candidates.labelRank (JStr l) = Fin 3 ↔
            l ≠ "READY_CONFIRMED" ∧ ¬ contains l "EARLY" ∧ l ≠ "WATCH"))
  ∧ (∀ rs vz : JsVal,
       (λ row, get (JObj row) "label") <$>
         Candidates.sorted (Some [candidate "WATCH" rs vz;
                                  candidate "READY_CONFIRMED" rs vz;
                                  candidate "EARLY_BREAKOUT" rs vz])
       = [JStr "READY_CONFIRMED"; JStr "EARLY_BREAKOUT"; JStr "WATCH"]).
Proof.
  intros Hnum. unfold Candidates.sorted. cbn [default].
  split; [|split; [|split]].
  - exists (array_sort Candidates.compareCandidates signals).
    split; [done|]. split; [apply array_sort_perm|].
    apply (array_sort_sorted _ numeric); [| |by eauto using lex_le_trans|done].
    + intros a b _ _. apply compare_after.
    + apply compare_before.
  - rewrite length_take.
    by rewrite (Permutation_length (array_sort_perm _ signals)).
  - apply labelRank_spec.
  - intros rs vz. reflexivity.
Qed.
End Ranking.

Lemma C5_witness :
  Candidates.sorted (B := Engine.sample)
    (Some [candidate "WATCH" (JNum (Fin 1)) JNull;
           candidate "EARLY" (JNum (Fin 1)) (JNum (Fin 2));
           candidate "EARLY_BREAKOUT" (JNum (Fin 3)) (JNum (Fin 0));
           candidate "READY_CONFIRMED" JNull JNull;
           candidate "EARLY" (JNum (Fin 1)) (JNum (Fin 5))])
  = [candidate "READY_CONFIRMED" JNull JNull;
     candidate "EARLY_BREAKOUT" (JNum (Fin 3)) (JNum (Fin 0));
     candidate "EARLY" (JNum (Fin 1)) (JNum (Fin 5));
     candidate "EARLY" (JNum (Fin 1)) (JNum (Fin 2));
     candidate "WATCH" (JNum (Fin 1)) JNull]
  ∧ ∃ ordered,
      Candidates.sorted (B := Engine.sample)
        (Some [candidate "WATCH" (JNum (Fin 1)) JNull;
               candidate "EARLY" (JNum (Fin 1)) (JNum (Fin 2));
               candidate "EARLY_BREAKOUT" (JNum (Fin 3)) (JNum (Fin 0));
               candidate "READY_CONFIRMED" JNull JNull;
               candidate "EARLY" (JNum (Fin 1)) (JNum (Fin 5))])
      = take 10 ordered
      ∧ StronglySorted
          (λ a b, lex_le (rankKey (B := Engine.sample) a) (rankKey (B := Engine.sample) b))
          ordered.
Proof.
  split; [reflexivity|].
  destruct (C5_review_priority_ranking (B := Engine.sample)
    [candidate "WATCH" (JNum (Fin 1)) JNull;
     candidate "EARLY" (JNum (Fin 1)) (JNum (Fin 2));
     candidate "EARLY_BREAKOUT" (JNum (Fin 3)) (JNum (Fin 0));
     candidate "READY_CONFIRMED" JNull JNull;
     candidate "EARLY" (JNum (Fin 1)) (JNum (Fin 5))])
    as [(ordered & H1 & _ & H3) _].
  - repeat constructor.
  - by exists ordered.
Defined.

(** ** The card normaliser *)

Section Normaliser.
Context {B : Builtins}.

(** The card is spread last: each of its own properties is in the signal
    as the card has it, and an explicit field shows only under a name the
    card does not carry. *)
Lemma cardToSignal_card_wins (m e : gmap string JsVal) (as_of : JsVal) (dl : string) :
  LibSignal.explicitFields (JObj m) as_of dl = Ok e →
  LibSignal.cardToSignal (JObj m) as_of dl = Ok (JObj (m ∪ e))
  ∧ (∀ k v, m !! k = Some v → (m ∪ e) !! k = Some v)
  ∧ (∀ k, m !! k = None → (m ∪ e) !! k = e !! k).
Proof.
  intros He. unfold LibSignal.cardToSignal. rewrite He. split; [done|].
  split; intros.
  - by apply lookup_union_Some_l.
  - by apply lookup_union_r.
Qed.

Lemma mapR_total {X Y} (f : X → Result Y) (l : list X) :
  Forall (λ x, ∃ y, f x = Ok y) l → ∃ ys, mapR f l = Ok ys.
Proof.
  induction 1 as [|x l [y Hy] _ [ys Hys]]; cbn [mapR]; [eauto|].
  rewrite Hy. cbn [mbind Result_bind]. rewrite Hys. eauto.
Qed.

(** The normaliser returns a signal for every card object whose plan
    targets hold no [null]. *)
Lemma cardToSignal_total (m : gmap string JsVal) (as_of : JsVal) (dl : string) :
  Forall (λ t, nullish t = false)
    (items_of (get (get (JObj m) "plan" ?? JObj ∅) "targets")) →
  ∃ s, LibSignal.cardToSignal (JObj m) as_of dl = Ok (JObj s)
       ∧ ∀ k v, m !! k = Some v → s !! k = Some v.
Proof.
  intros Ht.
  assert (∃ e, LibSignal.explicitFields (JObj m) as_of dl = Ok e) as [e He].
  { unfold LibSignal.explicitFields. cbn [getE nullish mbind Result_bind].
    destruct (isArray (get (get (JObj m) "plan" ?? JObj ∅) "targets")).
    - destruct (mapR_total
        (λ t, p ← getE t "price";
              Ok (JObj (obj [("price", JNum (ToNumber p))])))
        (items_of (get (get (JObj m) "plan" ?? JObj ∅) "targets"))) as [ts Hts].
      { eapply Forall_impl; [exact Ht|]. intros t Hn. unfold getE.
        rewrite Hn. cbn [mbind Result_bind]. eauto. }
      rewrite Hts. cbn [mbind Result_bind]. eauto.
    - destruct (isArray (opt (JObj m) "targets")); cbn [mbind Result_bind]; eauto. }
  destruct (cardToSignal_card_wins m e as_of dl He) as (Hs & Hw & _).
  eauto.
Qed.
End Normaliser.

(** The scenario of the specification: the card [ABC] with the default label
    WATCH. *)
Example cardToSignal_ABC :
  ∃ s, LibSignal.cardToSignal (B := Engine.sample) (JObj card_ABC) (JStr "t") "WATCH"
       = Ok (JObj s)
    ∧ get (JObj s) "ticker" = JStr "ABC"
    ∧ get (JObj s) "label" = JStr "WATCH"
    ∧ get (JObj s) "plan_type" = JStr "value_zone"
    ∧ get (get (JObj s) "entry") "zone"
      = JObj (obj [("low", num_of 95); ("high", num_of 98)])
    ∧ get (JObj s) "stop" = JObj (obj [("price", num_of 90)])
    ∧ get (JObj s) "targets" = JArr [JObj (obj [("price", num_of 110)])].
Proof. eexists. split; [reflexivity|]. repeat split. Qed.

(** C2.  The precedence of the explicit fields over the fields of the card
    does not hold on [card_tagged]: the normaliser computes the label
    READY_CONFIRMED and the stop 90 from [labels] and the plan, and the
    signal it returns carries the card's own [label] and [stop] instead. *)
Theorem C2_card_fields_override_explicit :
  ∃ explicit s,
    LibSignal.explicitFields (B := Engine.sample) (JObj card_tagged) (JStr "t") "WATCH"
    = Ok explicit
    ∧ LibSignal.cardToSignal (B := Engine.sample) (JObj card_tagged) (JStr "t") "WATCH"
      = Ok (JObj s)
    ∧ get (JObj explicit) "label" = JStr "READY_CONFIRMED"
    ∧ get (JObj s) "label" = JStr "SCANNER_TAG"
    ∧ get (JObj explicit) "stop" = JObj (obj [("price", num_of 90)])
    ∧ get (JObj s) "stop" = JObj (obj [("price", num_of 5)]).
Proof. do 2 eexists. split; [reflexivity|]. split; [reflexivity|]. repeat split. Qed.

(** ** The signals routes *)

Section Retrieval.
Context {B : Builtins}.

Lemma getSupabase_configured (e : Env) :
  configured e → SignalsRoute.getSupabase e = Ok tt.
Proof. intros [H1 H2]. unfold SignalsRoute.getSupabase. by rewrite H1, H2. Qed.


Lemma supabaseIfConfigured_iff (e : Env) :
  SignalsRoutePatch.supabaseIfConfigured e = true ↔ configured e.
Proof.
  unfold SignalsRoutePatch.supabaseIfConfigured, configured.
  destruct (unset (SUPABASE_URL e)), (unset (SUPABASE_SERVICE_ROLE_KEY e));
    simpl; intuition congruence.
Qed.

(** The catch branch of the route, once the snapshots have been read. *)
Lemma route_catch_source (w : World) (req : Request) (x : Exn) (fb : list JsVal) :
  SignalsRoute.fallbackSignals w = Ok fb →
  SignalsRoute.getSupabase (env w) = Throw x
  ∨ (SignalsRoute.getSupabase (env w) = Ok tt
     ∧ signals_table w (SignalsRoute.query_of req) = Rejected x) →
  ∃ r, SignalsRoute.GET w req = Ok r
       ∧ source r = JStr "fallback"
       ∧ get (JObj (body r)) "error" = JStr (message_of x).
Proof.
  intros Hfb H. unfold SignalsRoute.GET.
  destruct H as [-> | [-> ->]]; cbn [mbind Result_bind try_catch];
    rewrite Hfb; cbn [mbind Result_bind]; eexists; (split; [reflexivity|]);
    split; reflexivity.
Qed.

(** C1, as amended.  The [source] of the answer to a GET-signals request is
    ["supabase"] when the store query succeeds, ["fallback_after_db_error"]
    when the store answers with an error object, and ["fallback"] when the
    store is not configured (in the route with the [try], also when the
    query throws); in the two fallback cases this is the answer as soon as
    the snapshot files have been read and converted. *)
Theorem C1_source_of_answer (w : World) (req : Request) :
  (∀ data, configured (env w) →
     signals_table w (SignalsRoute.query_of req) = Resolved data None →
     ∃ r, SignalsRoute.GET w req = Ok r ∧ source r = JStr "supabase")
  ∧ (∀ data message fb, configured (env w) →
       signals_table w (SignalsRoute.query_of req) = Resolved data (Some message) →
       SignalsRoute.fallbackSignals w = Ok fb →
       ∃ r, SignalsRoute.GET w req = Ok r
            ∧ source r = JStr "fallback_after_db_error"
            ∧ get (JObj (body r)) "error" = JStr message)
  ∧ (∀ fb, ¬ configured (env w)
           ∨ (∃ x, signals_table w (SignalsRoute.query_of req) = Rejected x) →
       SignalsRoute.fallbackSignals w = Ok fb →
       ∃ r, SignalsRoute.GET w req = Ok r ∧ source r = JStr "fallback")
  ∧ (∀ data, configured (env w) →
       signals_table w (SignalsRoutePatch.query_of req) = Resolved data None →
       ∃ r, SignalsRoutePatch.GET w req = Ok r ∧ source r = JStr "supabase")
  ∧ (∀ data message fb, configured (env w) →
       signals_table w (SignalsRoutePatch.query_of req) = Resolved data (Some message) →
       SignalsRoutePatch.fallbackSignals w = Ok fb →
       ∃ r, SignalsRoutePatch.GET w req = Ok r
            ∧ source r = JStr "fallback_after_db_error"
            ∧ get (JObj (body r)) "error" = JStr message)
  ∧ (∀ fb, ¬ configured (env w) →
       SignalsRoutePatch.fallbackSignals w = Ok fb →
       ∃ r, SignalsRoutePatch.GET w req = Ok r ∧ source r = JStr "fallback").
Proof.
  repeat apply conj.
  - intros data Hc Hq. unfold SignalsRoute.GET.
    rewrite (getSupabase_configured _ Hc), Hq.
    cbn [mbind Result_bind try_catch]. eexists. split; reflexivity.
  - intros data message fb Hc Hq Hfb. unfold SignalsRoute.GET.
    rewrite (getSupabase_configured _ Hc), Hq.
    cbn [mbind Result_bind try_catch]. rewrite Hfb.
    cbn [mbind Result_bind]. eexists. split; [reflexivity|]. split; reflexivity.
  - intros fb H Hfb.
    destruct (unset (SUPABASE_URL (env w))
              || unset (SUPABASE_SERVICE_ROLE_KEY (env w))) eqn:Eu.
    + destruct (route_catch_source w req
                  (Error "Missing SUPABASE_URL / SUPABASE_SERVICE_ROLE_KEY") fb Hfb)
        as (r & Hr & Hs & _).
      { left. unfold SignalsRoute.getSupabase. by rewrite Eu. }
      eauto.
    + destruct H as [H | [x Hx]].
      { exfalso. apply H. apply orb_false_elim in Eu. done. }
      destruct (route_catch_source w req x fb Hfb) as (r & Hr & Hs & _).
      { right. split; [|done]. unfold SignalsRoute.getSupabase. by rewrite Eu. }
      eauto.
  - intros data Hc Hq. unfold SignalsRoutePatch.GET.
    apply supabaseIfConfigured_iff in Hc. rewrite Hc, Hq.
    eexists. split; reflexivity.
  - intros data message fb Hc Hq Hfb. unfold SignalsRoutePatch.GET.
    apply supabaseIfConfigured_iff in Hc. rewrite Hc, Hq, Hfb.
    cbn [mbind Result_bind]. eexists. split; [reflexivity|]. split; reflexivity.
  - intros fb Hc Hfb. unfold SignalsRoutePatch.GET.
    destruct (SignalsRoutePatch.supabaseIfConfigured (env w)) eqn:E.
    { apply supabaseIfConfigured_iff in E. done. }
    rewrite Hfb. cbn [mbind Result_bind]. eexists. split; reflexivity.
Qed.
End Retrieval.

(** C1 as the specification states it does not hold: when the store query
    succeeds the source is ["supabase"], not ["primary"], and when the store
    answers with an error it is ["fallback_after_db_error"], not
    ["fallback_after_error"]. *)
Lemma C1_counterexample :
  (∃ r, SignalsRoute.GET (B := Engine.sample) world_up (request []) = Ok r
        ∧ source r = JStr "supabase" ∧ source r ≠ JStr "primary")
  ∧ (∃ r, SignalsRoute.GET (B := Engine.sample) world_error (request []) = Ok r
          ∧ source r = JStr "fallback_after_db_error"
          ∧ source r ≠ JStr "fallback_after_error")
  ∧ (∃ r, SignalsRoutePatch.GET (B := Engine.sample) world_up (request []) = Ok r
          ∧ source r = JStr "supabase" ∧ source r ≠ JStr "primary").
Proof.
  repeat apply conj; eexists; (split; [reflexivity|]); split;
    try reflexivity; discriminate.
Qed.

Lemma C1_witness :
  (∃ r, SignalsRoute.GET (B := Engine.sample) world_up (request []) = Ok r
        ∧ source r = JStr "supabase")
  ∧ (∃ r, SignalsRoute.GET (B := Engine.sample) world_error (request []) = Ok r
          ∧ source r = JStr "fallback_after_db_error")
  ∧ (∃ r, SignalsRoute.GET (B := Engine.sample) world_unconfigured (request []) = Ok r
          ∧ source r = JStr "fallback")
  ∧ (∃ r, SignalsRoutePatch.GET (B := Engine.sample) world_error (request []) = Ok r
          ∧ source r = JStr "fallback_after_db_error").
Proof.
  destruct (C1_source_of_answer (B := Engine.sample) world_up (request []))
    as (H1 & _).
  destruct (C1_source_of_answer (B := Engine.sample) world_error (request []))
    as (_ & H2 & _ & _ & H5 & _).
  destruct (C1_source_of_answer (B := Engine.sample) world_unconfigured (request []))
    as (_ & _ & H3 & _).
  repeat apply conj.
  - apply (H1 (Some [row_1])); [by split | reflexivity].
  - edestruct H2 as (r & Hr & Hs & _); [by split | reflexivity | reflexivity |].
    by exists r.
  - eapply H3; [left; intros [H _]; discriminate | reflexivity].
  - edestruct H5 as (r & Hr & Hs & _); [by split | reflexivity | reflexivity |].
    by exists r.
Defined.

(** ** The row limit *)

Section Limit.
Context {B : Builtins}.

(** The patched route clamps a numeric limit into [1, 1000]. *)
Lemma patch_limit_clamped (req : Request) (q : Q) :
  SignalsRoutePatch.limit_of req = Fin q →
  ∃ q', q_limit (SignalsRoutePatch.query_of req) = Fin q'
        ∧ (1 <= q' <= 1000)%Q
        ∧ ((1 <= q <= 1000)%Q → q' = q)
        ∧ ((q < 1)%Q → q' = 1%Q)
        ∧ ((1000 < q)%Q → q' = 1000%Q).
Proof.
  intros Hl. unfold SignalsRoutePatch.query_of. cbn [q_limit].
  rewrite Hl. unfold Math_max. cbn [is_nan orb num_ltb].
  destruct (Qltb q 1) eqn:E1.
  - unfold Math_min. cbn [is_nan orb num_ltb].
    assert (E : Qltb 1000 1 = false) by reflexivity. rewrite E.
    exists 1%Q. q_bool. repeat split; try done; try lra.
  - unfold Math_min. cbn [is_nan orb num_ltb].
    destruct (Qltb 1000 q) eqn:E2.
    + exists 1000%Q. q_bool. repeat split; try done; try lra.
    + exists q. q_bool. repeat split; try done; try lra.
Qed.

(** The route with the [try] bounds it from above only. *)
Lemma route_limit_capped (req : Request) (q : Q) :
  ToNumber (JStr (default "200" (searchParams req !! "limit"))) = Fin q →
  q_limit (SignalsRoute.query_of req) = if Qltb 1000 q then Fin 1000 else Fin q.
Proof.
  intros Hl. unfold SignalsRoute.query_of, SignalsRoute.limit_of. cbn [q_limit].
  rewrite Hl. unfold Math_min. cbn [is_nan orb num_ltb]. done.
Qed.

(** Without a [limit] parameter both ask for 200 rows, [Number("200")]
    being 200. *)
Lemma limit_default (req : Request) :
  searchParams req !! "limit" = None → StringToNumber "200" = Fin 200 →
  q_limit (SignalsRoute.query_of req) = Fin 200
  ∧ q_limit (SignalsRoutePatch.query_of req) = Fin 200.
Proof.
  intros Hn Hp.
  unfold SignalsRoute.query_of, SignalsRoute.limit_of,
    SignalsRoutePatch.query_of, SignalsRoutePatch.limit_of.
  cbn [q_limit]. rewrite Hn. cbn [default ToNumber]. rewrite Hp. done.
Qed.

(** A [limit] that is not a number is passed on as [NaN] by both. *)
Lemma limit_not_a_number (req : Request) (text : string) :
  searchParams req !! "limit" = Some text → StringToNumber text = NaN →
  q_limit (SignalsRoute.query_of req) = NaN
  ∧ q_limit (SignalsRoutePatch.query_of req) = NaN.
Proof.
  intros Hs Hp.
  unfold SignalsRoute.query_of, SignalsRoute.limit_of,
    SignalsRoutePatch.query_of, SignalsRoutePatch.limit_of.
  cbn [q_limit]. rewrite Hs. simpl. rewrite Hp. done.
Qed.
End Limit.

(** C7.  The lower bound of the limit does not hold in
    [app/api/signals/route.ts]: on a request with [limit=0] (with
    [limit=-5]) the route asks the store for 0 rows (for -5), where the
    specification, and the patched route, ask for 1.  The upper bound and
    the default of 200 hold. *)
Theorem C7_limit_has_no_lower_bound :
  q_limit (SignalsRoute.query_of (B := Engine.sample) (request [("limit", "0")]))
  = Fin 0
  ∧ q_limit (SignalsRoute.query_of (B := Engine.sample) (request [("limit", "-5")]))
    = Fin (-5)
  ∧ q_limit (SignalsRoutePatch.query_of (B := Engine.sample) (request [("limit", "0")]))
    = Fin 1
  ∧ q_limit (SignalsRoute.query_of (B := Engine.sample) (request [("limit", "5000")]))
    = Fin 1000
  ∧ q_limit (SignalsRoute.query_of (B := Engine.sample) (request []))
    = Fin 200.
Proof. repeat split. Qed.

(** ** Missing snapshot files *)

Section Snapshots.
Context {B : Builtins}.

(** In the route with the [try], a snapshot that cannot be read or parsed
    adds nothing. *)
Lemma route_failed_read_adds_nothing (w : World) (fname label : string) (x : Exn) :
  read_json w ("market_ai_kit/output/" +:+ fname) = Throw x →
  SignalsRoute.pushed w (SignalsRoute.tryRead w fname) label = Ok [].
Proof. intros H. unfold SignalsRoute.tryRead. by rewrite H. Qed.

(** Its fallback is the sorted concatenation of what each tier adds, and
    it is an answer as soon as each snapshot that was read converts. *)
Lemma route_fallback_tolerant (w : World) (r e t : list JsVal) :
  SignalsRoute.pushed w (SignalsRoute.tryRead w "ready.json") "READY_CONFIRMED" = Ok r →
  SignalsRoute.pushed w (SignalsRoute.tryRead w "early.json") "EARLY" = Ok e →
  SignalsRoute.pushed w (SignalsRoute.tryRead w "watch.json") "WATCH" = Ok t →
  SignalsRoute.fallbackSignals w
  = Ok (array_sort SignalsRoute.by_recency (r ++ e ++ t)).
Proof.
  intros Hr He Ht. unfold SignalsRoute.fallbackSignals. by rewrite Hr, He, Ht.
Qed.

(** So a read that fails never fails the fallback of that route: it answers
    as soon as every snapshot that was read converts. *)
Lemma route_fallback_total (w : World) :
  (∀ fname label v,
     read_json w ("market_ai_kit/output/" +:+ fname) = Ok v → truthy v = true →
     ∃ l, LibSignal.cardsFileToSignals (now w) v label = Ok l) →
  ∃ fb, SignalsRoute.fallbackSignals w = Ok fb.
Proof.
  intros Hconv.
  assert (Hp : ∀ fname label,
             ∃ l, SignalsRoute.pushed w (SignalsRoute.tryRead w fname) label = Ok l).
  { intros fname label. unfold SignalsRoute.pushed, SignalsRoute.tryRead.
    destruct (read_json w ("market_ai_kit/output/" +:+ fname)) as [v|x] eqn:E;
      [|by exists []].
    destruct (truthy v) eqn:Et; [|by exists []].
    by apply (Hconv fname). }
  destruct (Hp "ready.json" "READY_CONFIRMED") as [r Hr].
  destruct (Hp "early.json" "EARLY") as [e He].
  destruct (Hp "watch.json" "WATCH") as [t Ht].
  rewrite (route_fallback_tolerant w r e t Hr He Ht). eauto.
Qed.

(** In the patched route one failed read fails the whole fallback. *)
Lemma patch_fallback_fails (w : World) (x : Exn) :
  read_json w "public/data/ready.json" = Throw x
  ∨ (∃ v, read_json w "public/data/ready.json" = Ok v)
    ∧ (read_json w "public/data/early.json" = Throw x
       ∨ (∃ v, read_json w "public/data/early.json" = Ok v)
         ∧ read_json w "public/data/watch.json" = Throw x) →
  SignalsRoutePatch.fallbackSignals w = Throw x.
Proof.
  unfold SignalsRoutePatch.fallbackSignals, SignalsRoutePatch.readJsonFromPublic.
  change ("public/" +:+ "data/ready.json") with "public/data/ready.json".
  change ("public/" +:+ "data/early.json") with "public/data/early.json".
  change ("public/" +:+ "data/watch.json") with "public/data/watch.json".
  intros [-> | [[v ->] [-> | [[v' ->] ->]]]]; reflexivity.
Qed.
End Snapshots.

(** C8.  A missing snapshot is not tolerated by the patched signals route:
    on a disk where [ready.json] is missing and the two other snapshots are
    present, its fallback throws and so does its GET when the store is not
    configured; the route with the [try] returns the signals of the two
    other tiers on the same disk. *)
Theorem C8_patch_fallback_not_tolerant :
  SignalsRoutePatch.fallbackSignals (B := Engine.sample) world_unconfigured
  = Throw (Error "ENOENT: no such file or directory")
  ∧ SignalsRoutePatch.GET (B := Engine.sample) world_unconfigured (request [])
    = Throw (Error "ENOENT: no such file or directory")
  ∧ ∃ early watch,
      LibSignal.cardToSignal (B := Engine.sample) (JObj card_tagged)
        (JStr "2026-01-02T00:00:00.000Z") "EARLY" = Ok early
      ∧ LibSignal.cardToSignal (B := Engine.sample) (JObj card_ABC)
          (JStr "2026-01-01T00:00:00.000Z") "WATCH" = Ok watch
      ∧ SignalsRoute.fallbackSignals (B := Engine.sample) world_unconfigured
        = Ok [early; watch].
Proof.
  split; [reflexivity|]. split; [reflexivity|].
  do 2 eexists. split; [reflexivity|]. split; reflexivity.
Qed.

(** ** Authorisation with an unset secret *)

Section Authorisation.
Context {B : Builtins}.

(** In development mode the ingest handler still answers 401 when a later
    step throws: its [catch] gives every exception that status. *)
Lemma ingest_dev_mode_without_store (e : Env) (st : IngestStore) (req : Request) :
  unset (INGEST_TOKEN e) = true → ¬ configured e →
  IngestScan.POST e st req
  = Ok (respond_with 401
          [("error", JStr "Missing SUPABASE_URL / SUPABASE_SERVICE_ROLE_KEY")]).
Proof.
  intros Hu Hc. unfold IngestScan.POST, IngestScan.assertAuth. rewrite Hu.
  cbn [mbind Result_bind]. unfold IngestScan.getSupabase, configured in *.
  destruct (unset (SUPABASE_URL e)), (unset (SUPABASE_SERVICE_ROLE_KEY e));
    try reflexivity.
  tauto.
Qed.

End Authorisation.



(** ** The label writer *)

Section Labels.
Context {B : Builtins}.


End Labels.



(** * Further properties of the code *)

(** ** The card normaliser, field by field *)

Section CardFields.
Context {B : Builtins}.

Lemma get_or_empty (x : JsVal) (k : string) : get (x ?? JObj ∅) k = opt x k.
Proof. by destruct x. Qed.

Lemma mapR_map {X Y} (f : X → Result Y) (g : X → Y) (l : list X) :
  Forall (λ x, f x = Ok (g x)) l → mapR f l = Ok (g <$> l).
Proof.
  induction 1 as [|x l Hx _ IH]; cbn [mapR fmap list_fmap]; [done|].
  rewrite Hx. cbn [mbind Result_bind]. by rewrite IH.
Qed.

(** The target list the normaliser writes. *)
Lemma explicit_targets (m : gmap string JsVal) :
  targets_readable m →
  (if isArray (get (get (JObj m) "plan" ?? JObj ∅) "targets") then
     ts ← mapR (λ t, p ← getE t "price";
                     Ok (JObj (obj [("price", JNum (ToNumber p))])))
               (items_of (get (get (JObj m) "plan" ?? JObj ∅) "targets"));
     Ok (JArr ts)
   else if isArray (opt (JObj m) "targets") then Ok (opt (JObj m) "targets")
   else Ok (JArr []))
  = Ok (if isArray (planTargets m)
        then JArr ((λ t, JObj (obj [("price", JNum (ToNumber (get t "price")))]))
                     <$> items_of (planTargets m))
        else if isArray (get (JObj m) "targets") then get (JObj m) "targets"
        else JArr []).
Proof.
  intros Ht. rewrite get_or_empty. fold (planTargets m).
  destruct (isArray (planTargets m)); [|by destruct (isArray _)].
  rewrite (mapR_map _
    (λ t, JObj (obj [("price", JNum (ToNumber (get t "price")))]))); [done|].
  eapply Forall_impl; [exact Ht|]. intros t Hn. unfold getE. by rewrite Hn.
Qed.

(** What the normaliser returns for a card object with readable targets:
    the card's own properties over the explicit ones. *)
Lemma cardToSignal_fields (m : gmap string JsVal) (as_of : JsVal) (dl : string) :
  targets_readable m →
  ∃ e, LibSignal.explicitFields (JObj m) as_of dl = Ok e
       ∧ LibSignal.cardToSignal (JObj m) as_of dl = Ok (JObj (m ∪ e))
       ∧ get (JObj e) "as_of" = as_of
       ∧ get (JObj e) "ticker" = get (JObj m) "ticker"
       ∧ get (JObj e) "label"
         = get0 (if isArray (get (JObj m) "labels")
                 then get (JObj m) "labels" else JArr []) ?? JStr dl
       ∧ get (JObj e) "plan_type" = opt (planEntry m) "type" ?? JStr "unknown"
       ∧ get (JObj e) "entry"
         = JObj (if is_str (opt (planEntry m) "type") "breakout_confirmation" then
                   obj [("type", JStr "breakout_confirmation");
                        ("trigger", get (planEntry m) "trigger");
                        ("why", get (planEntry m) "why")]
                 else if is_str (opt (planEntry m) "type") "value_zone" then
                   obj [("type", JStr "value_zone");
                        ("zone", get (planEntry m) "zone");
                        ("why", get (planEntry m) "why")]
                 else obj [("price", get (JObj m) "price")])
       ∧ get (JObj e) "stop"
         = JObj (obj [("price",
              JNum (ToNumber ((if is_number (planStop m) then planStop m
                               else opt (get (JObj m) "stop") "price")
                              ?? JNum (Fin 0))))])
       ∧ get (JObj e) "targets"
         = (if isArray (planTargets m)
            then JArr ((λ t, JObj (obj [("price", JNum (ToNumber (get t "price")))]))
                         <$> items_of (planTargets m))
            else if isArray (get (JObj m) "targets") then get (JObj m) "targets"
            else JArr []).
Proof.
  intros Ht. unfold LibSignal.cardToSignal, LibSignal.explicitFields.
  cbn [getE nullish mbind Result_bind].
  rewrite (explicit_targets m Ht). cbn [mbind Result_bind].
  rewrite !get_or_empty. fold (planEntry m). fold (planStop m).
  assert (Hs : (if is_number (planStop m)
                then get (opt (get (JObj m) "plan") "exit_if_wrong") "stop"
                else opt (opt (JObj m) "stop") "price")
               = (if is_number (planStop m) then planStop m
                  else opt (get (JObj m) "stop") "price")).
  { destruct (is_number (planStop m)) eqn:En; [|done].
    unfold planStop in *.
    by destruct (opt (get (JObj m) "plan") "exit_if_wrong"). }
  rewrite Hs.
  eexists. split; [reflexivity|]. split; [reflexivity|].
  repeat split.
Qed.

Lemma get_union_r (m e : gmap string JsVal) (k : string) :
  m !! k = None → get (JObj (m ∪ e)) k = get (JObj e) k.
Proof. intros H. unfold get. by rewrite lookup_union_r. Qed.

(** X1. For a card object that carries no [entry] and no [plan_type] of its
    own, the signal's entry follows the type of the plan's entry: a
    breakout keeps the trigger (and drops the zone), a value zone keeps the
    zone, and any other type, or none, gives the legacy entry
    [{ price: card.price }] with the plan type as it stands, ["unknown"]
    when there is none. *)
Theorem X1_entry_follows_plan (m : gmap string JsVal) (as_of : JsVal) (dl : string) :
  targets_readable m → m !! "entry" = None → m !! "plan_type" = None →
  ∃ s, LibSignal.cardToSignal (JObj m) as_of dl = Ok s
    ∧ (opt (planEntry m) "type" = JStr "breakout_confirmation" →
         get s "plan_type" = JStr "breakout_confirmation"
         ∧ get s "entry"
           = JObj (obj [("type", JStr "breakout_confirmation");
                        ("trigger", get (planEntry m) "trigger");
                        ("why", get (planEntry m) "why")]))
    ∧ (opt (planEntry m) "type" = JStr "value_zone" →
         get s "plan_type" = JStr "value_zone"
         ∧ get s "entry"
           = JObj (obj [("type", JStr "value_zone");
                        ("zone", get (planEntry m) "zone");
                        ("why", get (planEntry m) "why")]))
    ∧ (opt (planEntry m) "type" ≠ JStr "breakout_confirmation" →
       opt (planEntry m) "type" ≠ JStr "value_zone" →
         get s "plan_type" = opt (planEntry m) "type" ?? JStr "unknown"
         ∧ get s "entry" = JObj (obj [("price", get (JObj m) "price")])).
Proof.
  intros Ht He Hp.
  destruct (cardToSignal_fields m as_of dl Ht)
    as (e & _ & Hs & _ & _ & _ & Hpt & Hen & _).
  exists (JObj (m ∪ e)). split; [done|].
  rewrite !get_union_r, Hpt, Hen by done.
  repeat split.
  - by rewrite H.
  - by rewrite H.
  - by rewrite H.
  - by rewrite H.
  - destruct (opt (planEntry m) "type") as [| | | |t| |]; try done.
    cbn [is_str]. repeat case_bool_decide; congruence.
Qed.

(** X2. For a card object without a [label] of its own, the signal's label
    is the first of the card's [labels] when that is an array whose first
    element is not [null], and the default label in every other case: no
    [labels], [labels] that is not an array, an empty array, a first element
    that is [null]. *)
Theorem X2_label_or_default (m : gmap string JsVal) (as_of : JsVal) (dl : string) :
  targets_readable m → m !! "label" = None →
  ∃ s, LibSignal.cardToSignal (JObj m) as_of dl = Ok s
    ∧ (∀ l rest, get (JObj m) "labels" = JArr (l :: rest) → nullish l = false →
         get s "label" = l)
    ∧ (isArray (get (JObj m) "labels") = false
       ∨ get (JObj m) "labels" = JArr []
       ∨ (∃ l rest, get (JObj m) "labels" = JArr (l :: rest) ∧ nullish l = true) →
         get s "label" = JStr dl).
Proof.
  intros Ht Hl.
  destruct (cardToSignal_fields m as_of dl Ht)
    as (e & _ & Hs & _ & _ & Hlab & _).
  exists (JObj (m ∪ e)). split; [done|].
  rewrite !get_union_r, Hlab by done. split.
  - intros l rest -> Hn. simpl. unfold nullish_or. by rewrite Hn.
  - intros [H | [-> | (l & rest & -> & Hn)]].
    + by rewrite H.
    + done.
    + simpl. unfold nullish_or. by rewrite Hn.
Qed.

(** X3. For a card object without a [stop] of its own, the signal's stop is
    exactly [{ price: n }] with [n] a number: the plan's stop when that is a
    number, and 0 otherwise, also when the plan's stop is a numeric
    string. *)
Theorem X3_stop_is_plan_stop_or_zero (m : gmap string JsVal) (as_of : JsVal) (dl : string) :
  targets_readable m → m !! "stop" = None →
  ∃ s, LibSignal.cardToSignal (JObj m) as_of dl = Ok s
    ∧ (∀ n, planStop m = JNum n →
         get s "stop" = JObj (obj [("price", JNum n)]))
    ∧ (is_number (planStop m) = false →
         get s "stop" = JObj (obj [("price", JNum (Fin 0))])).
Proof.
  intros Ht Hst.
  destruct (cardToSignal_fields m as_of dl Ht)
    as (e & _ & Hs & _ & _ & _ & _ & _ & Hstop & _).
  exists (JObj (m ∪ e)). split; [done|].
  rewrite !get_union_r, Hstop by done. split.
  - intros n ->. reflexivity.
  - intros ->. unfold get at 1. by rewrite Hst.
Qed.

(** X4. For a card object without [targets] of its own, the signal's targets
    are the plan's, in the same order and number, each cut down to
    [{ price: Number(t.price) }]; they are the empty array when the plan's
    targets are not an array. *)
Theorem X4_targets_keep_price_only (m : gmap string JsVal) (as_of : JsVal) (dl : string) :
  targets_readable m → m !! "targets" = None →
  ∃ s, LibSignal.cardToSignal (JObj m) as_of dl = Ok s
    ∧ (∀ ts, planTargets m = JArr ts →
         get s "targets"
         = JArr ((λ t, JObj (obj [("price", JNum (ToNumber (get t "price")))])) <$> ts)
         ∧ length (items_of (get s "targets")) = length ts)
    ∧ (isArray (planTargets m) = false → get s "targets" = JArr []).
Proof.
  intros Ht Htg.
  destruct (cardToSignal_fields m as_of dl Ht)
    as (e & _ & Hs & _ & _ & _ & _ & _ & _ & Htar).
  exists (JObj (m ∪ e)). split; [done|].
  rewrite !get_union_r, Htar by done. split.
  - intros ts ->. cbn [isArray items_of]. split; [done|].
    by rewrite length_fmap.
  - intros ->. unfold get. by rewrite Htg.
Qed.
End CardFields.

Lemma X1_witness :
  ∃ s, LibSignal.cardToSignal (B := Engine.sample) (JObj card_ABC) (JStr "t") "WATCH"
       = Ok s
    ∧ get s "plan_type" = JStr "value_zone".
Proof.
  destruct (X1_entry_follows_plan (B := Engine.sample) card_ABC (JStr "t") "WATCH")
    as (s & Hs & _ & Hvz & _).
  - repeat constructor.
  - reflexivity.
  - reflexivity.
  - exists s. split; [exact Hs|]. apply Hvz. reflexivity.
Defined.

Lemma X2_witness :
  ∃ s, LibSignal.cardToSignal (B := Engine.sample) (JObj card_ABC) (JStr "t") "WATCH"
       = Ok s
    ∧ get s "label" = JStr "WATCH".
Proof.
  destruct (X2_label_or_default (B := Engine.sample) card_ABC (JStr "t") "WATCH")
    as (s & Hs & _ & Hd).
  - repeat constructor.
  - reflexivity.
  - exists s. split; [exact Hs|]. apply Hd. left. reflexivity.
Defined.

Lemma X3_witness :
  ∃ s, LibSignal.cardToSignal (B := Engine.sample) (JObj card_ABC) (JStr "t") "WATCH"
       = Ok s
    ∧ get s "stop" = JObj (obj [("price", num_of 90)]).
Proof.
  destruct (X3_stop_is_plan_stop_or_zero (B := Engine.sample) card_ABC (JStr "t") "WATCH")
    as (s & Hs & Hn & _).
  - repeat constructor.
  - reflexivity.
  - exists s. split; [exact Hs|]. apply Hn. reflexivity.
Defined.

Lemma X4_witness :
  ∃ s, LibSignal.cardToSignal (B := Engine.sample) (JObj card_ABC) (JStr "t") "WATCH"
       = Ok s
    ∧ get s "targets" = JArr [JObj (obj [("price", num_of 110)])].
Proof.
  destruct (X4_targets_keep_price_only (B := Engine.sample) card_ABC (JStr "t") "WATCH")
    as (s & Hs & Hn & _).
  - repeat constructor.
  - reflexivity.
  - exists s. split; [exact Hs|].
    apply (Hn [JObj (obj [("price", num_of 110)])]). reflexivity.
Defined.

(** ** Snapshot files *)

Section CardFiles.
Context {B : Builtins}.

Lemma mapR_Forall2 {X Y} (f : X → Result Y) (Q : X → Y → Prop) (l : list X) :
  Forall (λ x, ∃ y, f x = Ok y ∧ Q x y) l →
  ∃ ys, mapR f l = Ok ys ∧ Forall2 Q l ys.
Proof.
  induction 1 as [|x l (y & Hy & HQ) _ (ys & Hys & IH)]; cbn [mapR].
  { exists []. by split. }
  rewrite Hy. cbn [mbind Result_bind]. rewrite Hys. cbn [mbind Result_bind].
  exists (y :: ys). split; [done|]. by constructor.
Qed.

Lemma mapR_only {X Y} (f : X → Result Y) (l : list X) (e : Exn) :
  (∀ x e', f x = Throw e' → e' = TypeError) →
  mapR f l = Throw e → e = TypeError.
Proof.
  intros Hf. induction l as [|x l IH]; cbn [mapR]; [discriminate|].
  destruct (f x) as [y|e'] eqn:Ex; cbn [mbind Result_bind].
  - destruct (mapR f l); cbn [mbind Result_bind]; [discriminate|].
    intros [= ->]. by apply IH.
  - intros [= <-]. by eapply Hf.
Qed.

Lemma mapR_throws {X Y} (f : X → Result Y) (l : list X) :
  (∀ x e, f x = Throw e → e = TypeError) →
  Exists (λ x, ∃ e, f x = Throw e) l → mapR f l = Throw TypeError.
Proof.
  intros Hf. induction 1 as [x l [e He]|x l _ IH]; cbn [mapR].
  - rewrite He. cbn [mbind Result_bind]. by rewrite (Hf x e He).
  - destruct (f x) as [y|e] eqn:Ex; cbn [mbind Result_bind].
    + by rewrite IH.
    + by rewrite (Hf x e Ex).
Qed.

Lemma getE_only (v : JsVal) (k : string) (e : Exn) :
  getE v k = Throw e → e = TypeError.
Proof. unfold getE. destruct (nullish v); [by intros [= <-] | discriminate]. Qed.

Lemma cardToSignal_only (c as_of : JsVal) (dl : string) (e : Exn) :
  LibSignal.cardToSignal c as_of dl = Throw e → e = TypeError.
Proof.
  unfold LibSignal.cardToSignal, LibSignal.explicitFields.
  destruct (getE c "labels") as [v|e'] eqn:Eg; cbn [mbind Result_bind].
  2:{ intros [= <-]. by eapply getE_only. }
  destruct (isArray (get (get c "plan" ?? JObj ∅) "targets")).
  - destruct (mapR _ _) as [ts|e'] eqn:Em; cbn [mbind Result_bind]; [discriminate|].
    intros [= <-]. eapply mapR_only; [|exact Em].
    intros t e''. cbv beta.
    destruct (getE t "price") eqn:Et; cbn [mbind Result_bind];
      [discriminate|]. intros [= <-]. by eapply getE_only.
  - destruct (isArray (opt c "targets")); cbn [mbind Result_bind]; discriminate.
Qed.

Lemma cardToSignal_unreadable (c as_of : JsVal) (dl : string) :
  nullish c = true ∨ (∃ m, c = JObj m ∧ ¬ targets_readable m) →
  LibSignal.cardToSignal c as_of dl = Throw TypeError.
Proof.
  intros [Hn | (m & -> & Hm)].
  - unfold LibSignal.cardToSignal, LibSignal.explicitFields, getE. by rewrite Hn.
  - unfold LibSignal.cardToSignal, LibSignal.explicitFields.
    cbn [getE nullish mbind Result_bind].
    rewrite !get_or_empty. fold (planTargets m). unfold targets_readable in Hm.
    destruct (planTargets m) as [| | | | |ts|] eqn:Ep;
      try (exfalso; apply Hm; constructor).
    cbn [isArray items_of] in *.
    rewrite mapR_throws; [done| |].
    + intros t e. cbv beta.
      destruct (getE t "price") eqn:Et; cbn [mbind Result_bind];
        [discriminate|]. intros [= <-]. by eapply getE_only.
    + apply not_Forall_Exists in Hm; [|intros t; apply bool_eq_dec].
      eapply Exists_impl; [exact Hm|]. intros t Ht. cbn in Ht.
      exists TypeError. unfold getE.
      destruct (nullish t); [done|congruence].
Qed.

(** X5. A snapshot file whose [cards] are card objects with readable targets
    converts to one signal per card, in the order of the file; each signal
    comes from its card with the [as_of] of the file, or the current time
    when the file has none, and carries it unless the card has an [as_of]
    of its own.  A file without [cards] converts to no signal. *)
Theorem X5_file_converts_in_order (f : gmap string JsVal) (now dl : string) :
  (∀ cs, get (JObj f) "cards" = JArr cs → Forall readable_card cs →
     ∃ l, LibSignal.cardsFileToSignals now (JObj f) dl = Ok l
       ∧ length l = length cs
       ∧ Forall2 (λ c s,
           LibSignal.cardToSignal c (get (JObj f) "as_of" ?? JStr now) dl = Ok s
           ∧ ∀ m, c = JObj m → m !! "as_of" = None →
               get s "as_of" = get (JObj f) "as_of" ?? JStr now) cs l)
  ∧ (nullish (get (JObj f) "cards") = true →
       LibSignal.cardsFileToSignals now (JObj f) dl = Ok []).
Proof.
  split.
  - intros cs Hc Hr. unfold LibSignal.cardsFileToSignals.
    cbn [getE nullish mbind Result_bind]. rewrite Hc. cbn [nullish_or nullish].
    destruct (mapR_Forall2
      (λ c, LibSignal.cardToSignal c (get (JObj f) "as_of" ?? JStr now) dl)
      (λ c s,
         LibSignal.cardToSignal c (get (JObj f) "as_of" ?? JStr now) dl = Ok s
         ∧ ∀ m, c = JObj m → m !! "as_of" = None →
             get s "as_of" = get (JObj f) "as_of" ?? JStr now) cs)
      as (l & Hl & H2).
    { eapply Forall_impl; [exact Hr|]. intros c (m & -> & Hm).
      destruct (cardToSignal_fields m (get (JObj f) "as_of" ?? JStr now) dl Hm)
        as (e & _ & Hs & Hao & _).
      eexists. split; [exact Hs|]. split; [exact Hs|].
      intros m' [= <-] Ha. by rewrite get_union_r. }
    exists l. split; [done|]. split; [symmetry; by eapply Forall2_length|done].
  - intros Hn. unfold LibSignal.cardsFileToSignals.
    cbn [getE nullish mbind Result_bind]. unfold nullish_or. by rewrite Hn.
Qed.

(** X6. The conversion of a snapshot file throws a [TypeError] when the file
    is [null], when its [cards] are there but are not an array, and when one
    of its cards is [null] or has a [null] among its plan targets: a single
    such card loses the signals of every card of the file. *)
Theorem X6_malformed_file_throws (now dl : string) (file : JsVal) :
  (nullish file = true →
     LibSignal.cardsFileToSignals now file dl = Throw TypeError)
  ∧ (nullish file = false → nullish (get file "cards") = false →
     isArray (get file "cards") = false →
       LibSignal.cardsFileToSignals now file dl = Throw TypeError)
  ∧ (∀ cs, nullish file = false → get file "cards" = JArr cs →
       Exists (λ c, nullish c = true ∨ ∃ m, c = JObj m ∧ ¬ targets_readable m) cs →
       LibSignal.cardsFileToSignals now file dl = Throw TypeError).
Proof.
  unfold LibSignal.cardsFileToSignals, getE. repeat split.
  - by intros ->.
  - intros -> Hn Ha. cbn [mbind Result_bind]. unfold nullish_or. rewrite Hn.
    by destruct (get file "cards").
  - intros cs -> -> Hex. cbn [mbind Result_bind nullish_or nullish].
    apply mapR_throws.
    + intros c e. apply cardToSignal_only.
    + eapply Exists_impl; [exact Hex|]. intros c Hc. cbv beta.
      exists TypeError. by apply cardToSignal_unreadable.
Qed.
End CardFiles.

Lemma X5_witness :
  ∃ l, LibSignal.cardsFileToSignals (B := Engine.sample) "2026-01-05T00:00:00.000Z"
         (cards_file "2026-01-01T00:00:00.000Z" [card_ABC; card_tagged]) "WATCH"
       = Ok l
    ∧ length l = 2%nat.
Proof.
  destruct (X5_file_converts_in_order (B := Engine.sample)
              (obj [("as_of", JStr "2026-01-01T00:00:00.000Z");
                    ("cards", JArr (JObj <$> [card_ABC; card_tagged]))])
              "2026-01-05T00:00:00.000Z" "WATCH") as [H _].
  destruct (H (JObj <$> [card_ABC; card_tagged])) as (l & Hl & Hlen & _).
  - reflexivity.
  - repeat constructor; eexists; (split; [reflexivity|]); repeat constructor.
  - exists l. split; [exact Hl | exact Hlen].
Defined.

Lemma X6_witness :
  LibSignal.cardsFileToSignals (B := Engine.sample) "2026-01-05T00:00:00.000Z"
    (JObj (obj [("cards", JArr [JObj card_ABC; JNull])])) "WATCH"
  = Throw TypeError.
Proof.
  destruct (X6_malformed_file_throws (B := Engine.sample)
              "2026-01-05T00:00:00.000Z" "WATCH"
              (JObj (obj [("cards", JArr [JObj card_ABC; JNull])])))
    as (_ & _ & H).
  apply (H [JObj card_ABC; JNull]); [reflexivity | reflexivity |].
  apply Exists_cons_tl, Exists_cons_hd. left. reflexivity.
Defined.

(** ** The rows of the store, as the route hands them on *)

Ltac in_list :=
  lazymatch goal with
  | |- _ ∈ ?l => try unfold l
  end;
  repeat first [apply list_elem_of_here | apply list_elem_of_further].

Section StoreRows.
Context {B : Builtins}.

Lemma nullish_or_defined (a b : JsVal) :
  nullish b = false → nullish (a ?? b) = false.
Proof. unfold nullish_or. by destruct (nullish a) eqn:E. Qed.

Lemma nullish_or_l (a b : JsVal) : nullish a = false → a ?? b = a.
Proof. unfold nullish_or. by intros ->. Qed.

Lemma nullish_or_r (a b : JsVal) : nullish a = true → a ?? b = b.
Proof. unfold nullish_or. by intros ->. Qed.

Lemma normalizeStop_shape (stop : JsVal) :
  ∃ m n, SignalsRoute.normalizeStop stop = JObj m ∧ m !! "price" = Some (JNum n).
Proof.
  unfold SignalsRoute.normalizeStop.
  destruct (truthy stop) eqn:Et; cbn [negb].
  - destruct stop as [| | |n| | |]; cbn [is_number];
      eexists _, _; (split; [reflexivity|]);
      first [reflexivity | apply lookup_insert_eq].
  - by eexists _, _.
Qed.

(** X7. [normalizeStop] always gives an object whose [price] is a number,
    and leaves such an object as it is, so that normalising twice is
    normalising once.  Of an object it keeps every other property; where
    the object has no [price] it reads [stop], then [stop_price], then
    takes 0. *)
Theorem X7_normalizeStop_numeric_price (stop : JsVal) :
  (∃ m n, SignalsRoute.normalizeStop stop = JObj m ∧ m !! "price" = Some (JNum n))
  ∧ SignalsRoute.normalizeStop (SignalsRoute.normalizeStop stop)
    = SignalsRoute.normalizeStop stop
  ∧ (∀ m k, stop = JObj m → k ≠ "price" →
       get (SignalsRoute.normalizeStop stop) k = get stop k)
  ∧ (∀ m, stop = JObj m → nullish (get stop "price") = true →
       get (SignalsRoute.normalizeStop stop) "price"
       = JNum (ToNumber (get stop "stop" ?? get stop "stop_price" ?? JNum (Fin 0)))).
Proof.
  split; [apply normalizeStop_shape|]. split; [|split].
  - destruct (normalizeStop_shape stop) as (m & n & -> & Hp).
    unfold SignalsRoute.normalizeStop. cbn [truthy negb is_number spread].
    unfold get at 1. rewrite Hp. cbn [default nullish_or nullish ToNumber].
    f_equal. by apply insert_id.
  - intros m k -> Hk. unfold SignalsRoute.normalizeStop.
    cbn [truthy negb is_number spread]. by apply get_insert_ne.
  - intros m -> Hn. unfold SignalsRoute.normalizeStop.
    cbn [truthy negb is_number spread]. rewrite get_insert_eq.
    rewrite (nullish_or_r (get (JObj m) "price")) by done.
    by rewrite (nullish_or_l (_ ?? _ ?? _))
      by (repeat apply nullish_or_defined; done).
Qed.

Lemma extractAi_cases (entry : JsVal) :
  let ai := opt entry "ai" ?? opt entry "AI" ?? JNull in
  (truthy ai = false ∧ SignalsRoute.extractAi entry = JNull)
  ∨ (truthy ai = true
     ∧ ∀ k, k ∈ ai_keys →
         opt (SignalsRoute.extractAi entry) k = get ai k ?? JNull).
Proof.
  intros ai. unfold SignalsRoute.extractAi. fold ai.
  destruct (truthy ai) eqn:Et; cbn [negb]; [right|left]; split; try done.
  intros k Hk. unfold opt. cbn [nullish]. unfold ai_keys in Hk.
  repeat (apply elem_of_cons in Hk as [->|Hk]; [reflexivity|]).
  by apply elem_of_nil in Hk.
Qed.

(** X8. [extractAi] gives [null], or an object with exactly the six
    properties [probability], [confidence], [why], [chosen_stop],
    [stop_ladder] and [runtime_ms], none of them [undefined].  It reads the
    block under [ai], and the one under [AI] only when [entry.ai] is [null]
    or [undefined]: an [ai] that is there hides an [AI] beside it. *)
Theorem X8_extractAi_block (entry : JsVal) :
  (SignalsRoute.extractAi entry = JNull
   ∨ ∃ m, SignalsRoute.extractAi entry = JObj m
        ∧ dom m = list_to_set (C := gset string) ai_keys
        ∧ ∀ k v, m !! k = Some v → is_defined v = true)
  ∧ (∀ m x, entry = JObj m → nullish (get entry "ai") = false →
       SignalsRoute.extractAi (JObj (<["AI" := x]> m))
       = SignalsRoute.extractAi entry).
Proof.
  split.
  - unfold SignalsRoute.extractAi.
    set (ai := opt entry "ai" ?? opt entry "AI" ?? JNull).
    destruct (truthy ai); cbn [negb]; [right|by left].
    eexists. split; [reflexivity|]. split.
    + unfold obj. cbn [reverse rev_append list_to_map foldr uncurry fst snd].
      rewrite !dom_insert_L, dom_empty_L. unfold ai_keys. cbn [list_to_set foldr].
      set_solver.
    + intros k v. unfold obj.
      cbn [reverse rev_append list_to_map foldr uncurry fst snd].
      repeat (rewrite lookup_insert_Some; intros [[<- <-]|[_ Hl]];
              [ unfold nullish_or;
                match goal with |- context [nullish ?a] =>
                  by destruct a end
              | revert Hl ]).
      by rewrite lookup_empty.
  - intros m x -> Hn. unfold SignalsRoute.extractAi.
    assert (H : ∀ m', opt (JObj m') "ai" = get (JObj m') "ai") by done.
    rewrite !H. rewrite get_insert_ne by done.
    by rewrite !(nullish_or_l (get (JObj m) "ai")) by done.
Qed.

Lemma normalizeRow_get (s : gmap string JsVal) (k : string) :
  get (SignalsRoute.normalizeRow s) k
  = if bool_decide (k ∈ row_keys)
    then
      let entry := SignalsRoute.normalizeEntry (get (JObj s) "entry") in
      let ai := SignalsRoute.extractAi entry in
      if bool_decide (k = "entry") then entry
      else if bool_decide (k = "stop") then SignalsRoute.normalizeStop (get (JObj s) "stop")
      else if bool_decide (k = "targets")
        then (if isArray (get (JObj s) "targets") then get (JObj s) "targets" else JArr [])
      else opt ai k ?? get (JObj s) k ?? JNull
    else get (JObj s) k.
Proof.
  unfold SignalsRoute.normalizeRow.
  case_bool_decide as Hk.
  - unfold row_keys in Hk.
    repeat (apply elem_of_cons in Hk as [->|Hk];
            [unfold get at 1; (erewrite lookup_union_Some_l; [reflexivity|]); reflexivity|]).
    by apply elem_of_nil in Hk.
  - unfold get at 1. unfold get at 1.
    rewrite lookup_union_r; [done|].
    unfold obj. cbn [reverse rev_append list_to_map foldr uncurry fst snd].
    unfold row_keys in Hk.
    repeat (rewrite lookup_insert_ne; [|intros <-; apply Hk; set_solver]).
    apply lookup_empty.
Qed.

(** X9. A row the store returns is handed on with every property the route
    does not compute itself unchanged ([id], [ticker], [label],
    [created_at], ...).  Of the computed ones, [entry] is an object, [stop]
    an object with a numeric [price], [targets] an array, and
    [probability], [confidence], [why], [chosen_stop] and [stop_ladder] are
    never [undefined]: each is the value of the entry's AI block, else the
    row's own, else [null]. *)
Theorem X9_row_normalised (s : gmap string JsVal) :
  (∀ k, k ∉ row_keys → get (SignalsRoute.normalizeRow s) k = get (JObj s) k)
  ∧ (∃ m, get (SignalsRoute.normalizeRow s) "entry" = JObj m)
  ∧ (∃ m n, get (SignalsRoute.normalizeRow s) "stop" = JObj m
          ∧ m !! "price" = Some (JNum n))
  ∧ isArray (get (SignalsRoute.normalizeRow s) "targets") = true
  ∧ (∀ k, k ∈ ["probability"; "confidence"; "why"; "chosen_stop"; "stop_ladder"] →
       is_defined (get (SignalsRoute.normalizeRow s) k) = true
       ∧ get (SignalsRoute.normalizeRow s) k
         = opt (SignalsRoute.extractAi (get (SignalsRoute.normalizeRow s) "entry")) k
             ?? get (JObj s) k ?? JNull).
Proof.
  repeat split.
  - intros k Hk. rewrite normalizeRow_get. by rewrite bool_decide_eq_false_2.
  - rewrite normalizeRow_get. cbn [bool_decide]. simpl.
    destruct (normalizeEntry_coerced (get (JObj s) "entry")) as (m & -> & _). eauto.
  - rewrite normalizeRow_get. simpl. apply normalizeStop_shape.
  - rewrite normalizeRow_get. simpl.
    by destruct (isArray (get (JObj s) "targets")) eqn:E.
  - rewrite normalizeRow_get.
    repeat (apply elem_of_cons in H as [->|H];
            [simpl; unfold nullish_or;
             repeat match goal with |- context [nullish ?a] =>
               destruct a; cbn [nullish is_defined]; try done end|]).
    by apply elem_of_nil in H.
  - rewrite (normalizeRow_get s "entry"). rewrite normalizeRow_get.
    repeat (apply elem_of_cons in H as [->|H]; [reflexivity|]).
    by apply elem_of_nil in H.
Qed.

Lemma enrich_get (m : gmap string JsVal) (k : string) :
  k ∈ ["probability"; "confidence"; "why"; "chosen_stop"; "stop_ladder"] →
  get (Page.enrich m) k
  = get (JObj m) k ?? opt (opt (get (JObj m) "entry") "ai" ?? JNull) k ?? JNull.
Proof.
  intros Hk. unfold Page.enrich, Page.probabilityOf, Page.chosenStopOf.
  repeat (apply elem_of_cons in Hk as [->|Hk];
          [unfold get at 1; (erewrite lookup_union_Some_l; [reflexivity|]); reflexivity|]).
  by apply elem_of_nil in Hk.
Qed.

Lemma falsy_has_no_property (a : JsVal) (k : string) :
  truthy a = false → opt a k = JUndefined.
Proof. by destruct a. Qed.

(** X10. The page reads back what the route wrote.  The route prefers the
    entry's AI block to the row's own fields, the page prefers the row's own
    fields to the AI block; on a row the route has normalised the two agree:
    the page's enrichment leaves [probability], [confidence], [why],
    [chosen_stop] and [stop_ladder] as the route set them, and the
    probability and the chosen stop its metrics use are those fields. *)
Theorem X10_page_keeps_route_fields (s m : gmap string JsVal) :
  SignalsRoute.normalizeRow s = JObj m →
  (∀ k, k ∈ ["probability"; "confidence"; "why"; "chosen_stop"; "stop_ladder"] →
     get (Page.enrich m) k = get (JObj m) k)
  ∧ Page.probabilityOf m = get (JObj m) "probability"
  ∧ Page.chosenStopOf m = get (JObj m) "chosen_stop".
Proof.
  intros Hm.
  assert (Hall : ∀ k,
    k ∈ ["probability"; "confidence"; "why"; "chosen_stop"; "stop_ladder"] →
    get (JObj m) k ?? opt (opt (get (JObj m) "entry") "ai" ?? JNull) k ?? JNull
    = get (JObj m) k).
  { intros k Hk.
    assert (Hin : k ∈ row_keys ∧ k ∈ ai_keys
                  ∧ k ≠ "entry" ∧ k ≠ "stop" ∧ k ≠ "targets").
    { repeat (apply elem_of_cons in Hk as [->|Hk];
              [by repeat split; try in_list|]).
      by apply elem_of_nil in Hk. }
    destruct Hin as (Hrow & Hai & N1 & N2 & N3).
    pose proof (normalizeRow_get s k) as Hk'.
    pose proof (normalizeRow_get s "entry") as He.
    rewrite Hm in Hk', He.
    rewrite bool_decide_eq_true_2 in Hk' by done.
    cbv zeta in Hk'. rewrite !bool_decide_eq_false_2 in Hk' by done.
    simpl in He. rewrite He.
    set (entry := SignalsRoute.normalizeEntry (get (JObj s) "entry")) in *.
    destruct (nullish (get (JObj m) k)) eqn:En; [|by apply nullish_or_l].
    rewrite nullish_or_r by done.
    assert (Hd : nullish (opt (SignalsRoute.extractAi entry) k) = true).
    { rewrite Hk' in En. unfold nullish_or in En.
      destruct (nullish (opt (SignalsRoute.extractAi entry) k)) eqn:E;
        [done | congruence]. }
    assert (Hv : get (JObj m) k = JNull).
    { rewrite Hk'. rewrite nullish_or_r by done.
      rewrite Hk' in En. rewrite nullish_or_r in En by done.
      unfold nullish_or in *.
      destruct (nullish (get (JObj s) k)) eqn:E; [done | congruence]. }
    rewrite Hv.
    destruct (nullish (opt entry "ai")) eqn:Ea.
    - by rewrite (nullish_or_r (opt entry "ai")) by done.
    - rewrite (nullish_or_l (opt entry "ai")) by done.
      destruct (extractAi_cases entry) as [[Ht _]|[Ht Hx]].
      + rewrite (nullish_or_l (opt entry "ai")) in Ht by done.
        by rewrite falsy_has_no_property.
      + rewrite (Hx k Hai) in Hd.
        rewrite (nullish_or_l (opt entry "ai")) in Hd, Ht by done.
        assert (Ho : opt (opt entry "ai") k = get (opt entry "ai") k).
        { unfold opt at 1. by rewrite Ea. }
        rewrite Ho. unfold nullish_or in *.
        destruct (nullish (get (opt entry "ai") k)) eqn:E; [done | congruence]. }
  split; [|split].
  - intros k Hk. rewrite enrich_get by done. by apply Hall.
  - unfold Page.probabilityOf. apply Hall. in_list.
  - unfold Page.chosenStopOf. apply Hall. in_list.
Qed.
End StoreRows.

Lemma X10_witness :
  ∃ m, SignalsRoute.normalizeRow (B := Engine.sample) row_1 = JObj m
     ∧ Page.probabilityOf m = get (JObj m) "probability".
Proof.
  eexists. split; [reflexivity|].
  by apply (X10_page_keeps_route_fields (B := Engine.sample) row_1).
Defined.

(** ** The fallback tier *)

Section FallbackTier.
Context {B : Builtins}.

Lemma is_str_eq (v : JsVal) (s : string) : is_str v s = true ↔ v = JStr s.
Proof.
  destruct v; simpl; try (split; [discriminate|congruence]).
  rewrite bool_decide_eq_true. split; congruence.
Qed.




(** X12. The fallback of [app/api/signals/route.ts] holds exactly the
    signals of the snapshots that were read, each once: sorting by recency
    only reorders them.  A snapshot that cannot be read, or that parses to
    [null], adds none. *)
Theorem X12_fallback_loses_nothing (w : World) (fb : list JsVal) :
  SignalsRoute.fallbackSignals w = Ok fb →
  ∃ r e t,
    SignalsRoute.pushed w (SignalsRoute.tryRead w "ready.json") "READY_CONFIRMED" = Ok r
    ∧ SignalsRoute.pushed w (SignalsRoute.tryRead w "early.json") "EARLY" = Ok e
    ∧ SignalsRoute.pushed w (SignalsRoute.tryRead w "watch.json") "WATCH" = Ok t
    ∧ fb ≡ₚ r ++ e ++ t
    ∧ (∀ fname label,
         (∃ x, read_json w ("market_ai_kit/output/" +:+ fname) = Throw x)
         ∨ read_json w ("market_ai_kit/output/" +:+ fname) = Ok JNull →
         SignalsRoute.pushed w (SignalsRoute.tryRead w fname) label = Ok []).
Proof.
  unfold SignalsRoute.fallbackSignals.
  destruct (SignalsRoute.pushed w (SignalsRoute.tryRead w "ready.json") _)
    as [r|] eqn:Hr; [|discriminate].
  destruct (SignalsRoute.pushed w (SignalsRoute.tryRead w "early.json") _)
    as [e|] eqn:He; [|discriminate].
  destruct (SignalsRoute.pushed w (SignalsRoute.tryRead w "watch.json") _)
    as [t|] eqn:Ht; [|discriminate].
  cbn [mbind Result_bind]. intros [= <-]. exists r, e, t.
  repeat split; try done.
  - apply array_sort_perm.
  - intros fname label [[x Hx] | Hn]; unfold SignalsRoute.tryRead.
    + by rewrite Hx.
    + by rewrite Hn.
Qed.
End FallbackTier.


Lemma X12_witness :
  ∃ fb r e t,
    SignalsRoute.fallbackSignals (B := Engine.sample) world_unconfigured = Ok fb
    ∧ fb ≡ₚ r ++ e ++ t.
Proof.
  eexists.
  edestruct (X12_fallback_loses_nothing (B := Engine.sample) world_unconfigured)
    as (r & e & t & _ & _ & _ & Hp & _); [reflexivity|].
  exists r, e, t. split; [reflexivity | exact Hp].
Defined.

(** ** The entry price of the patched route *)

Section EntryPrice.
Context {B : Builtins}.


End EntryPrice.


(** ** The expected value *)

Section ExpectedValue.
Context {B : Builtins}.


End ExpectedValue.


(** ** The display: order, selection and the level panel *)

Section Display.
Context {B : Builtins}.





Lemma enriched_objects (signals : list (gmap string JsVal)) (s : JsVal) :
  s ∈ Page.enriched signals → ∃ m, s = JObj m.
Proof.
  unfold Page.enriched. intros (m & -> & _)%list_elem_of_fmap.
  unfold Page.enrich. eauto.
Qed.

Lemma find_some {A} (f : A → bool) (l : list A) (x : A) :
  List.find f l = Some x → x ∈ l ∧ f x = true.
Proof.
  induction l as [|y l IH]; cbn [List.find]; [discriminate|].
  destruct (f y) eqn:E.
  - intros [= <-]. split; [apply list_elem_of_here | done].
  - intros [H1 H2]%IH. split; [by apply list_elem_of_further | done].
Qed.

Lemma find_none {A} (f : A → bool) (l : list A) :
  List.find f l = None → Forall (λ x, f x = false) l.
Proof.
  induction l as [|y l IH]; cbn [List.find]; [constructor|].
  destruct (f y) eqn:E; [discriminate|]. intros H. constructor; auto.
Qed.

(** X16. The signal shown in the detail pane, of the signals in display
    order: it is [null] exactly when there is no signal at all, and otherwise
    one of the signals.  When a ticker is selected and a signal carries it,
    the pane shows a signal with that ticker; when nothing is selected, or no
    signal carries the selected ticker, it shows the first signal of the
    display order. *)
Theorem X16_selected_signal (key : string) (selected : option string)
    (signals : list (gmap string JsVal)) :
  let rows := PageView.sorted key (Page.enriched signals) in
  let shown := PageView.selectedSignal selected rows in
  (shown = JNull ↔ signals = [])
  ∧ (signals ≠ [] → shown ∈ rows)
  ∧ (∀ t s, selected = Some t → t ≠ "" → s ∈ rows → get s "ticker" = JStr t →
       get shown "ticker" = JStr t)
  ∧ (selected = None ∨ selected = Some ""
     ∨ (∃ t, selected = Some t ∧ Forall (λ s, get s "ticker" ≠ JStr t) rows) →
     head rows = Some shown ∨ (rows = [] ∧ shown = JNull)).
Proof.
  intros rows shown.
  assert (Hperm : rows ≡ₚ Page.enriched signals) by apply array_sort_perm.
  assert (Hobj : ∀ s, s ∈ rows → ∃ m, s = JObj m).
  { intros s Hs. rewrite Hperm in Hs. by eapply enriched_objects. }
  assert (Hnil : rows = [] ↔ signals = []).
  { split.
    - intros E. rewrite E in Hperm. apply Permutation_nil_l in Hperm.
      by destruct signals.
    - intros ->. by apply Permutation_nil_r in Hperm. }
  assert (Hfirst : get0 (JArr rows) ?? JNull
                   = match rows with [] => JNull | s :: _ => s end).
  { destruct rows as [|s l] eqn:E; [done|]. cbn [get0 head default].
    destruct (Hobj s) as [m ->]; [apply list_elem_of_here | done]. }
  assert (Hshown : shown = get0 (JArr rows) ?? JNull
                   ∨ ∃ t s, selected = Some t ∧ t ≠ "" ∧ s ∈ rows
                            ∧ get s "ticker" = JStr t ∧ shown = s).
  { subst shown. unfold PageView.selectedSignal.
    destruct selected as [t|]; [|by left].
    case_bool_decide as Et; [by left|].
    destruct (List.find _ rows) as [s|] eqn:Ef; [|by left].
    apply find_some in Ef as [Hin Hs]. apply is_str_eq in Hs.
    right. exists t, s. repeat split; try done.
    cbn [default]. destruct (Hobj s Hin) as [m ->]. done. }
  split; [|split; [|split]].
  - rewrite <- Hnil. destruct Hshown as [-> | (t & s & _ & _ & Hin & _ & ->)].
    + rewrite Hfirst. destruct rows as [|s l] eqn:E; [done|].
      destruct (Hobj s) as [m ->]; [apply list_elem_of_here|]. split; discriminate.
    + destruct (Hobj s Hin) as [m ->]. split; [discriminate|].
      intros E. rewrite E in Hin. by apply elem_of_nil in Hin.
  - intros Hne. destruct Hshown as [-> | (t & s & _ & _ & Hin & _ & ->)]; [|done].
    rewrite Hfirst. destruct rows as [|s l] eqn:E; [|apply list_elem_of_here].
    exfalso. apply Hne. by apply Hnil.
  - intros t s -> Ht Hin Hs. subst shown. unfold PageView.selectedSignal.
    rewrite bool_decide_eq_false_2 by done.
    destruct (List.find _ rows) as [s'|] eqn:Ef.
    + apply find_some in Ef as [Hin' Hs']. apply is_str_eq in Hs'.
      cbn [default]. destruct (Hobj s' Hin') as [m ->]. done.
    + apply find_none in Ef. rewrite Forall_forall in Ef.
      specialize (Ef s Hin). apply is_str_eq in Hs. congruence.
  - intros Hsel.
    assert (E : shown = get0 (JArr rows) ?? JNull).
    { subst shown. unfold PageView.selectedSignal.
      destruct Hsel as [-> | [-> | (t & -> & Hall)]]; try done.
      case_bool_decide; [done|].
      destruct (List.find _ rows) as [s|] eqn:Ef; [|done].
      apply find_some in Ef as [Hin Hs]. apply is_str_eq in Hs.
      rewrite Forall_forall in Hall. by destruct (Hall s Hin). }
    rewrite E, Hfirst. destruct rows; [by right | by left].
Qed.


End Display.

Lemma X16_witness :
  get (PageView.selectedSignal (Some "ABC")
         (PageView.sorted (B := Engine.sample) "ev"
            (Page.enriched (B := Engine.sample) [signal_100_90_120])))
      "ticker" = JStr "ABC".
Proof.
  destruct (X16_selected_signal (B := Engine.sample) "ev" (Some "ABC")
              [signal_100_90_120]) as (_ & _ & H & _).
  apply (H "ABC" (Page.enrich (B := Engine.sample) signal_100_90_120));
    [reflexivity | discriminate | apply list_elem_of_here | reflexivity].
Defined.


(** ** Credentials *)

Section Credentials.
Context {B : Builtins}.

Lemma replace_first_eq (pat rep s : string) :
  replace_first pat rep s
  = match drop_prefix pat s with
    | Some rest => rep +:+ rest
    | None =>
        match s with
        | EmptyString => EmptyString
        | String c s' => String c (replace_first pat rep s')
        end
    end.
Proof. by destruct s. Qed.

Lemma replace_first_prefix (pat rep s : string) :
  replace_first pat rep (pat +:+ s) = rep +:+ s.
Proof.
  rewrite replace_first_eq.
  by rewrite (proj2 (drop_prefix_spec pat (pat +:+ s) s) eq_refl).
Qed.

Lemma replace_first_absent (pat rep s : string) :
  includes s pat = false → replace_first pat rep s = s.
Proof.
  induction s as [|c s IH]; cbn [includes replace_first].
  - by destruct (drop_prefix pat EmptyString).
  - destruct (drop_prefix pat (String c s)); [discriminate|].
    intros H. by rewrite IH.
Qed.

(** X18. The two teach routes decide alike on every request.  With the
    teach secret set, a request is let in exactly when it has an
    [authorization] header that is the secret once its first ["Bearer "] is
    removed: the header ["Bearer <secret>"] is let in, a request without the
    header is not, and the bare secret without the scheme is let in as well
    (when the secret does not itself contain ["Bearer "]). *)
Theorem X18_teach_token (e : Env) (req : Request) :
  Candidates.mustAuth e req = TeachLabel.requireTeachToken e req
  ∧ ∀ tok, TEACH_TOKEN e = Some tok → tok ≠ "" →
      (Candidates.mustAuth e req = true
       ↔ ∃ h, headers req !! "authorization" = Some h
            ∧ replace_first "Bearer " "" h = tok)
      ∧ (headers req !! "authorization" = None →
         Candidates.mustAuth e req = false)
      ∧ (headers req !! "authorization" = Some ("Bearer " +:+ tok) →
         Candidates.mustAuth e req = true)
      ∧ (headers req !! "authorization" = Some tok →
         includes tok "Bearer " = false →
         Candidates.mustAuth e req = true).
Proof.
  split.
  { unfold Candidates.mustAuth, TeachLabel.requireTeachToken, Candidates.bearer.
    destruct (unset (TEACH_TOKEN e)); [done|]. cbn [orb andb negb].
    by case_bool_decide. }
  intros tok Ht Hne.
  assert (Hiff : Candidates.mustAuth e req = true
                 ↔ ∃ h, headers req !! "authorization" = Some h
                      ∧ replace_first "Bearer " "" h = tok).
  { unfold Candidates.mustAuth, Candidates.bearer. rewrite Ht. cbn [unset].
    rewrite bool_decide_eq_false_2 by done. cbn [orb].
    destruct (headers req !! "authorization") as [h|]; cbn [fmap option_fmap option_map].
    - case_bool_decide as E; cbn [negb].
      + split; [intros _|done]. exists h. split; [done|]. congruence.
      + split; [done|]. intros (h' & [= <-] & <-). done.
    - rewrite bool_decide_eq_false_2 by done. cbn [negb].
      split; [done|]. by intros (h & ? & _). }
  split; [done|]. repeat split.
  - intros Hn. apply not_true_is_false. intros E.
    apply Hiff in E as (h & Hh & _). congruence.
  - intros Hh. apply Hiff. eexists. split; [exact Hh|].
    apply (replace_first_prefix "Bearer " "" tok).
  - intros Hh Hi. apply Hiff. exists tok. split; [done|].
    by apply replace_first_absent.
Qed.

(** X19. Every handler that writes to or reads from the store checks that
    the store is configured before it looks at the credentials.  Without
    [SUPABASE_URL] or [SUPABASE_SERVICE_ROLE_KEY], the candidates route, the
    label writer and the inline ingest handler throw the configuration error
    on every request, authorised or not, and the label writer inserts
    nothing; the ingest handler with the [try] answers 401 on every
    request. *)
Theorem X19_store_checked_first (e : Env) (req : Request) :
  ¬ configured e →
  (∀ st, Candidates.GET e st req
         = Throw (Error "Supabase env vars missing (SUPABASE_URL / SUPABASE_SERVICE_ROLE_KEY)"))
  ∧ (∀ st, TeachLabel.POST e st req
           = ([], Throw (Error "Supabase env vars missing (SUPABASE_URL / SUPABASE_SERVICE_ROLE_KEY)")))
  ∧ (∀ st, IngestScanInline.POST e st req
           = Throw (Error "Supabase env vars missing (SUPABASE_URL / SUPABASE_SERVICE_ROLE_KEY)"))
  ∧ (∀ st, ∃ message,
       IngestScan.POST e st req = Ok (respond_with 401 [("error", JStr message)])).
Proof.
  intros Hc.
  assert (Hu : unset (SUPABASE_URL e) || unset (SUPABASE_SERVICE_ROLE_KEY e) = true).
  { unfold configured in Hc.
    destruct (unset (SUPABASE_URL e)), (unset (SUPABASE_SERVICE_ROLE_KEY e));
      try done. tauto. }
  repeat split; intros st.
  - unfold Candidates.GET, Candidates.getSupabase. by rewrite Hu.
  - unfold TeachLabel.POST, TeachLabel.getSupabase. by rewrite Hu.
  - unfold IngestScanInline.POST, IngestScanInline.getSupabase. by rewrite Hu.
  - unfold IngestScan.POST, IngestScan.getSupabase. rewrite Hu.
    destruct (IngestScan.assertAuth e req) as [[]|x];
      cbn [mbind Result_bind try_catch]; eauto.
Qed.

Lemma strip_bearer_scheme (scheme tok : string) :
  scheme = "Bearer " ∨ scheme = "bearer " ∨ scheme = "BEARER " →
  drop_spaces tok = tok →
  strip_bearer (scheme +:+ tok) = tok.
Proof.
  intros Hs Ht. unfold strip_bearer.
  assert (E : drop_prefix_ci "bearer" (scheme +:+ tok) = Some (String " " tok)).
  { by destruct Hs as [->|[->| ->]]. }
  rewrite E. by change (is_space " ") with true.
Qed.

(** X20. The ingest check with its secret set.  When the request has an
    [x-ingest-token] header, that header alone decides, whatever
    [authorization] says; without it, the [authorization] header decides,
    read without its scheme, which may be written in any case (["Bearer "],
    ["bearer "], ["BEARER "]); a request with neither header is refused. *)
Theorem X20_ingest_token (e : Env) (req : Request) (tok : string) :
  INGEST_TOKEN e = Some tok → tok ≠ "" →
  (∀ t, headers req !! "x-ingest-token" = Some t →
     IngestScan.assertAuth e req
     = if bool_decide (t = tok) then Ok tt else Throw (Error "Unauthorized ingest"))
  ∧ (∀ scheme, headers req !! "x-ingest-token" = None →
       scheme = "Bearer " ∨ scheme = "bearer " ∨ scheme = "BEARER " →
       drop_spaces tok = tok →
       headers req !! "authorization" = Some (scheme +:+ tok) →
       IngestScan.assertAuth e req = Ok tt)
  ∧ (headers req !! "x-ingest-token" = None →
     headers req !! "authorization" = None →
     IngestScan.assertAuth e req = Throw (Error "Unauthorized ingest")).
Proof.
  intros Ht Hne. unfold IngestScan.assertAuth. rewrite Ht. cbn [unset].
  rewrite bool_decide_eq_false_2 by done. repeat split.
  - intros t ->. repeat case_bool_decide; try done; congruence.
  - intros scheme -> Hs Hd ->. cbn [fmap option_fmap option_map default].
    rewrite strip_bearer_scheme by done. by rewrite bool_decide_eq_true_2.
  - intros -> ->. cbn [fmap option_fmap option_map default].
    rewrite bool_decide_eq_false_2; [done|]. congruence.
Qed.

End Credentials.

Lemma X18_witness :
  Candidates.mustAuth env_with_teach_token (label_request "s3cret" (num_of 5)) = true.
Proof.
  destruct (X18_teach_token env_with_teach_token (label_request "s3cret" (num_of 5)))
    as [_ H].
  destruct (H "s3cret") as (_ & _ & Hb & _); [reflexivity | discriminate |].
  apply Hb. reflexivity.
Defined.

Lemma X19_witness :
  Candidates.GET (B := Engine.sample) env_empty teach_store (request [])
  = Throw (Error "Supabase env vars missing (SUPABASE_URL / SUPABASE_SERVICE_ROLE_KEY)").
Proof.
  destruct (X19_store_checked_first (B := Engine.sample) env_empty (request []))
    as [H _].
  - intros [H _]. discriminate.
  - apply H.
Defined.

Lemma X20_witness :
  IngestScan.assertAuth env_with_ingest_token
    (request_with [("authorization", "bearer s3cret")]) = Ok tt.
Proof.
  destruct (X20_ingest_token env_with_ingest_token
              (request_with [("authorization", "bearer s3cret")]) "s3cret")
    as (_ & H & _); [reflexivity | discriminate |].
  apply (H "bearer "); [reflexivity | | reflexivity | reflexivity].
  right. left. reflexivity.
Defined.

(** ** The ingest handler *)

Ltac ingest_case :=
  eexists; split; [reflexivity|]; cbn [status respond_with respond body];
  split; [first [by left | right; split; [auto|eexists; reflexivity]]|];
  split; [intros [? ?]; first [done | congruence]|];
  intros ? ? ? ?; first [by auto | congruence].

Section Ingest.
Context {B : Builtins}.

(** X22. The ingest handler with the [try] never throws: it answers every
    request, with status 200 and [ok: true], or with status 400, 401 or 500
    and a body that holds an [error] text and nothing else.  Its [catch]
    turns every exception into a 401: a request whose body is not JSON gets
    status 401, and when the store client throws on the scan run the status
    is 401 as well (or 400, when the payload was refused before the store
    was asked). *)
Theorem X22_ingest_always_answers (e : Env) (st : IngestStore) (req : Request) :
  ∃ r, IngestScan.POST e st req = Ok r
     ∧ ((status r = 200%nat ∧ get (JObj (body r)) "ok" = JBool true)
        ∨ ((status r = 400%nat ∨ status r = 401%nat ∨ status r = 500%nat)
           ∧ ∃ message, body r = obj [("error", JStr message)]))
     ∧ ((∃ x, json req = Throw x) → status r = 401%nat)
     ∧ (∀ x payload, json req = Ok payload →
          insert_scan_run st (opt payload "scan_runs") = Rejected x →
          status r = 400%nat ∨ status r = 401%nat).
Proof.
  unfold IngestScan.POST.
  destruct (IngestScan.assertAuth e req) as [[]|x] eqn:Ea;
    cbn [mbind Result_bind try_catch]; [|ingest_case].
  destruct (IngestScan.getSupabase e) as [[]|x] eqn:Es;
    cbn [mbind Result_bind try_catch]; [|ingest_case].
  destruct (json req) as [payload|x] eqn:Ej;
    cbn [mbind Result_bind try_catch]; [|ingest_case].
  destruct (negb (truthy (opt payload "scan_runs"))
            || negb (truthy (opt payload "signals"))
            || negb (isArray (opt payload "signals"))) eqn:Ev; [ingest_case|].
  destruct (insert_scan_run st (opt payload "scan_runs"))
    as [scanRun [message|]|x] eqn:Ei; cbn [try_catch]; try ingest_case.
  destruct (mapR _ (items_of (opt payload "signals"))) as [rows|x] eqn:Em;
    cbn [mbind Result_bind try_catch]; [|ingest_case].
  destruct (insert_signals st rows) as [[] [message|]|x] eqn:Is;
    cbn [try_catch]; try ingest_case.
  destruct (getE scanRun "id") as [id|x] eqn:Eid;
    cbn [mbind Result_bind try_catch]; ingest_case.
Qed.

Lemma mapR_rows (id : JsVal) (signals rows : list JsVal) :
  mapR (λ s, Ok (JObj (spread s ∪ obj [("scan_run_id", id)]))) signals = Ok rows →
  Forall2 (λ s row, ∃ m, row = JObj m
             ∧ (∀ k, k ≠ "scan_run_id" → m !! k = spread s !! k)
             ∧ m !! "scan_run_id" = Some (default id (spread s !! "scan_run_id")))
    signals rows.
Proof.
  revert rows.
  induction signals as [|s l IH]; intros rows; cbn [mapR].
  { intros [= <-]. constructor. }
  cbn [mbind Result_bind].
  destruct (mapR _ l) as [rows'|]; cbn [mbind Result_bind]; [|discriminate].
  intros [= <-]. constructor; [|by apply IH].
  eexists. split; [reflexivity|]. split.
  - intros k Hk. rewrite lookup_union.
    replace (obj [("scan_run_id", id)] !! k) with (@None JsVal).
    + by destruct (spread s !! k).
    + symmetry. unfold obj. cbn. by rewrite lookup_insert_ne.
  - rewrite lookup_union.
    replace (obj [("scan_run_id", id)] !! "scan_run_id") with (Some id) by done.
    by destruct (spread s !! "scan_run_id").
Qed.

(** X23. When the ingest handler answers 200, the request passed the
    check, its body held a scan run and an array of signals, the store took
    the scan run and then one row for each signal, in order, and [inserted]
    is the number of signals.  A row has the properties of its signal and the
    [id] of the new scan run as [scan_run_id], unless the signal carries a
    [scan_run_id] of its own, which is kept. *)
Theorem X23_ingest_rows (e : Env) (st : IngestStore) (req : Request) (r : Response) :
  IngestScan.POST e st req = Ok r → status r = 200%nat →
  IngestScan.assertAuth e req = Ok tt
  ∧ ∃ payload signals scanRun id rows,
      json req = Ok payload
      ∧ opt payload "signals" = JArr signals
      ∧ insert_scan_run st (opt payload "scan_runs") = Resolved scanRun None
      ∧ getE scanRun "id" = Ok id
      ∧ insert_signals st rows = Resolved tt None
      ∧ Forall2 (λ s row, ∃ m, row = JObj m
                   ∧ (∀ k, k ≠ "scan_run_id" → m !! k = spread s !! k)
                   ∧ m !! "scan_run_id" = Some (default id (spread s !! "scan_run_id")))
          signals rows
      ∧ get (JObj (body r)) "inserted" = JNum (of_nat (length signals))
      ∧ get (JObj (body r)) "scan_run_id" = id.
Proof.
  unfold IngestScan.POST.
  destruct (IngestScan.assertAuth e req) as [[]|x] eqn:Ea;
    cbn [mbind Result_bind try_catch]; [|by intros [= <-]].
  destruct (IngestScan.getSupabase e) as [[]|x] eqn:Es;
    cbn [mbind Result_bind try_catch]; [|by intros [= <-]].
  destruct (json req) as [payload|x] eqn:Ej;
    cbn [mbind Result_bind try_catch]; [|by intros [= <-]].
  destruct (negb (truthy (opt payload "scan_runs"))
            || negb (truthy (opt payload "signals"))
            || negb (isArray (opt payload "signals"))) eqn:Ev;
    [by intros [= <-]|].
  destruct (insert_scan_run st (opt payload "scan_runs"))
    as [scanRun [message|]|x] eqn:Ei; cbn [try_catch]; try by intros [= <-].
  destruct (mapR _ (items_of (opt payload "signals"))) as [rows|x] eqn:Em;
    cbn [mbind Result_bind try_catch]; [|by intros [= <-]].
  destruct (insert_signals st rows) as [[] [message|]|x] eqn:Is;
    cbn [try_catch]; try by intros [= <-].
  destruct (getE scanRun "id") as [id|x] eqn:Eid;
    cbn [mbind Result_bind try_catch]; [|by intros [= <-]].
  intros [= <-] _. split; [done|].
  apply orb_false_elim in Ev as [_ Harr]. apply negb_false_iff in Harr.
  destruct (opt payload "signals") as [| | | | |signals|] eqn:Esig; try done.
  cbn [items_of] in Em.
  exists payload, signals, scanRun, id, rows.
  cbn [mbind Result_bind] in Em.
  pose proof (mapR_rows id signals rows Em) as Hrows.
  repeat split; try done.
  cbn [respond body]. apply Forall2_length in Hrows. rewrite Hrows. reflexivity.
Qed.
End Ingest.

Lemma X23_witness :
  ∃ r, IngestScan.POST (B := Engine.sample) env_with_ingest_token ingest_store
         ingest_request = Ok r
     ∧ get (JObj (body r)) "inserted" = JNum (of_nat 2).
Proof.
  eexists. split; [reflexivity|].
  edestruct (X23_ingest_rows (B := Engine.sample) env_with_ingest_token ingest_store
               ingest_request)
    as (_ & payload & signals & scanRun & id & rows & Hj & Hs & _ & _ & _ & _ & Hi & _);
    [reflexivity | reflexivity |].
  rewrite Hi. injection Hj as <-. injection Hs as <-. reflexivity.
Defined.

(** ** The label writer and the review candidates *)

Section TeachRoutes.
Context {B : Builtins}.




(** X25. The row the label writer builds has the ten columns of
    [teach_labels] and no other, whatever else the body holds.  Its
    [entry_reasons] is an array of at most two items, the first ones of the
    body's; [notes], [scan_run_id] and [signal_id] are [null] when the body
    has none, never [undefined]. *)
Theorem X25_label_row_columns (body : JsVal) :
  dom (TeachLabel.rowOf body) = list_to_set (C := gset string) label_columns
  ∧ (∃ l, TeachLabel.rowOf body !! "entry_reasons" = Some (JArr l)
        ∧ length l ≤ 2
        ∧ l `prefix_of` items_of (get body "entry_reasons"))
  ∧ (∀ k, k ∈ ["notes"; "scan_run_id"; "signal_id"] →
       is_defined (get (JObj (TeachLabel.rowOf body)) k) = true
       ∧ (nullish (get body k) = true →
          get (JObj (TeachLabel.rowOf body)) k = JNull)).
Proof.
  split; [|split].
  - unfold TeachLabel.rowOf, obj.
    cbn [reverse rev_append list_to_map foldr uncurry fst snd].
    rewrite !dom_insert_L, dom_empty_L. unfold label_columns.
    cbn [list_to_set foldr]. set_solver.
  - destruct (isArray (get body "entry_reasons")) eqn:Ea.
    + exists (take 2 (items_of (get body "entry_reasons"))). split; [|split].
      * unfold TeachLabel.rowOf. by rewrite Ea.
      * rewrite length_take. lia.
      * eexists. symmetry. apply take_drop.
    + exists []. split; [|split].
      * unfold TeachLabel.rowOf. by rewrite Ea.
      * simpl. lia.
      * apply prefix_nil.
  - intros k Hk.
    repeat (apply elem_of_cons in Hk as [->|Hk];
            [match goal with
             | |- context [get (JObj (TeachLabel.rowOf body)) ?j] =>
                 change (get (JObj (TeachLabel.rowOf body)) j)
                   with (get body j ?? JNull)
             end;
             unfold nullish_or;
             destruct (nullish (get body _)) eqn:E;
             [done | split; [revert E; by destruct (get body _) | done]] |]).
    by apply elem_of_nil in Hk.
Qed.

(** X26. When the candidates route answers 200, the request was
    authorised and the store returned a latest scan run and its signals
    without an error.  The answer carries the [as_of] of that run and at
    most ten candidates: ten, or all the signals when there are fewer.  Each
    candidate is one of the ranked signals with all its properties, and the
    boolean [already_labeled_today] besides. *)
Theorem X26_candidates_answer (e : Env) (st : TeachStore) (req : Request)
    (r : Response) :
  Candidates.GET e st req = Ok r → status r = 200%nat →
  Candidates.mustAuth e req = true
  ∧ ∃ scanRun signals cs,
      latest_scan_run st = Resolved scanRun None
      ∧ signals_of_run st (get scanRun "id") = Resolved signals None
      ∧ get (JObj (body r)) "as_of" = get scanRun "as_of"
      ∧ get (JObj (body r)) "candidates" = JArr cs
      ∧ length cs = Nat.min 10 (length (default [] signals))
      ∧ Forall2 (λ s c, ∃ b, c = JObj (<["already_labeled_today" := JBool b]> s))
          (Candidates.sorted signals) cs.
Proof.
  unfold Candidates.GET.
  destruct (Candidates.getSupabase e) as [[]|x]; cbn [mbind Result_bind];
    [|discriminate].
  destruct (Candidates.mustAuth e req) eqn:Ea; cbn [negb]; [|by intros [= <-]].
  destruct (latest_scan_run st) as [scanRun scanErr|x] eqn:El; [|discriminate].
  destruct (bool_decide (is_Some scanErr) || negb (truthy scanRun)) eqn:Es;
    [by intros [= <-]|].
  destruct (signals_of_run st (get scanRun "id")) as [signals [message|]|x] eqn:Eg;
    try discriminate; [by intros [= <-]|].
  destruct (labeled_tickers st _ _) as [labeled err|x]; [|discriminate].
  intros [= <-] _. split; [done|].
  apply orb_false_elim in Es as [Es _]. apply bool_decide_eq_false in Es.
  assert (scanErr = None) as -> by (destruct scanErr; [by destruct Es | done]).
  eexists scanRun, signals, _. split; [done|]. split; [done|].
  split; [reflexivity|]. split; [reflexivity|]. split.
  - rewrite length_fmap. unfold Candidates.sorted. rewrite length_take.
    by rewrite (Permutation_length (array_sort_perm _ _)).
  - apply Forall2_fmap_r, Forall_Forall2_diag, Forall_forall.
    intros s _. eauto.
Qed.
End TeachRoutes.


Lemma X26_witness :
  ∃ r cs, Candidates.GET (B := Engine.sample) env_with_teach_token teach_store
            (label_request "s3cret" (num_of 5)) = Ok r
        ∧ get (JObj (body r)) "candidates" = JArr cs
        ∧ length cs = 2%nat.
Proof.
  eexists.
  edestruct (X26_candidates_answer (B := Engine.sample) env_with_teach_token teach_store
               (label_request "s3cret" (num_of 5)))
    as (_ & scanRun & signals & cs & _ & Hs & _ & Hc & Hl & _);
    [reflexivity | reflexivity |].
  exists cs. split; [reflexivity|]. split; [exact Hc|].
  rewrite Hl. injection Hs as <-. reflexivity.
Defined.

(** ** The form of the teach page *)

Section TeachForm.

Lemma toggleReason_elem (r x : string) (prev : list string) :
  x ∈ TeachPage.toggleReason r prev
  ↔ (x ∈ prev ∧ x ≠ r) ∨ (x = r ∧ (r ∉ prev) ∧ (length prev < 2)%nat).
Proof.
  unfold TeachPage.toggleReason.
  case_bool_decide as Hin.
  - rewrite list_elem_of_filter. split; [tauto|]. intros [?|(-> & ? & _)]; tauto.
  - case_bool_decide as Hlen.
    + split.
      * intros Hx. left. split; [done|]. by intros ->.
      * intros [[? _]|(_ & _ & ?)]; [done|lia].
    + rewrite elem_of_app, list_elem_of_singleton. split.
      * intros [Hx| ->]; [left; split; [done|by intros ->] | right; repeat split; [done|lia]].
      * intros [[? _]|(-> & _ & _)]; auto.
Qed.

Lemma toggleReason_step (r : string) (prev : list string) :
  length prev ≤ 2 → NoDup prev →
  length (TeachPage.toggleReason r prev) ≤ 2 ∧ NoDup (TeachPage.toggleReason r prev).
Proof.
  intros Hlen Hnd. unfold TeachPage.toggleReason.
  case_bool_decide as Hin.
  - split; [|by apply NoDup_filter].
    etrans; [apply length_filter | done].
  - case_bool_decide as H2; [done|]. split.
    + rewrite length_app. simpl. lia.
    + apply NoDup_app. repeat split; [done| |apply NoDup_singleton].
      intros x Hx ->%list_elem_of_singleton. done.
Qed.

(** X27. The entry reasons chosen on the teach form.  Starting from none,
    whatever buttons are clicked in whatever order, at most two reasons are
    chosen and none twice.  A click on a chosen reason removes it and keeps
    the others; a click on another reason adds it when fewer than two are
    chosen and does nothing otherwise; clicking a reason twice in a row, when
    the first click added it, gives back the earlier choice. *)
Theorem X27_entry_reasons (clicks : list string) (r : string) :
  let chosen := foldl (λ prev c, TeachPage.toggleReason c prev) [] clicks in
  length chosen ≤ 2 ∧ NoDup chosen
  ∧ (∀ x, x ∈ TeachPage.toggleReason r chosen
          ↔ (x ∈ chosen ∧ x ≠ r) ∨ (x = r ∧ (r ∉ chosen) ∧ (length chosen < 2)%nat))
  ∧ (r ∉ chosen → length chosen < 2 →
     TeachPage.toggleReason r (TeachPage.toggleReason r chosen) = chosen).
Proof.
  intros chosen.
  assert (Hinv : length chosen ≤ 2 ∧ NoDup chosen).
  { subst chosen.
    assert (H0 : length (@nil string) ≤ 2 ∧ NoDup (@nil string))
      by (split; [simpl; lia | constructor]).
    revert H0. generalize (@nil string).
    induction clicks as [|c l IH]; intros acc [H1 H2]; cbn [foldl]; [done|].
    by apply IH, toggleReason_step. }
  destruct Hinv as [Hlen Hnd]. repeat split; try done.
  - by apply toggleReason_elem.
  - by apply toggleReason_elem.
  - intros Hin H2. unfold TeachPage.toggleReason at 2.
    rewrite bool_decide_eq_false_2 by done.
    rewrite bool_decide_eq_false_2 by lia.
    unfold TeachPage.toggleReason.
    rewrite bool_decide_eq_true_2 by (apply elem_of_app; right; by apply list_elem_of_singleton).
    rewrite filter_app. cbn [filter list_filter].
    rewrite decide_False by (by intros H; apply H).
    rewrite app_nil_r. clear -Hin.
    induction chosen as [|x l IH]; [done|].
    rewrite filter_cons. apply not_elem_of_cons in Hin as [Hx Hl].
    rewrite decide_True by done. by rewrite IH.
Qed.

(** X28. The arrow keys of the teach page, with [n >= 1] candidates and
    the index on one of them: the left arrow moves to the candidate before,
    the right arrow to the one after, and at either end the index stays where
    it is, so that it always points at a candidate. *)
Theorem X28_arrow_keys (n : nat) (i : Z) :
  (0 <= i < Z.of_nat n)%Z →
  ∃ l r : Z,
    TeachPage.arrowLeft (Fin (inject_Z i)) =n= Fin (inject_Z l)
    ∧ TeachPage.arrowRight n (Fin (inject_Z i)) =n= Fin (inject_Z r)
    ∧ l = Z.max (i - 1) 0 ∧ r = Z.min (i + 1) (Z.of_nat n - 1)
    ∧ (0 <= l < Z.of_nat n)%Z ∧ (0 <= r < Z.of_nat n)%Z.
Proof.
  intros Hi. exists (Z.max (i - 1) 0), (Z.min (i + 1) (Z.of_nat n - 1)).
  unfold TeachPage.arrowLeft, TeachPage.arrowRight, Math_max, Math_min, of_nat.
  cbn [num_sub num_neg num_add is_nan orb num_ltb num_equiv].
  split; [|split; [|lia]].
  - destruct (Qltb _ _) eqn:E; q_bool; cbn [num_equiv];
      unfold Qlt, Qle, Qeq in *; simpl in *; lia.
  - destruct (Qltb _ _) eqn:E; q_bool; cbn [num_equiv];
      unfold Qlt, Qle, Qeq in *; simpl in *; lia.
Qed.
End TeachForm.

Lemma X28_witness :
  ∃ l r : Z,
    TeachPage.arrowLeft (Fin (inject_Z 0)) =n= Fin (inject_Z l)
    ∧ TeachPage.arrowRight 3 (Fin (inject_Z 0)) =n= Fin (inject_Z r)
    ∧ l = 0%Z ∧ r = 1%Z.
Proof.
  destruct (X28_arrow_keys 3 0) as (l & r & Hl & Hr & -> & -> & _); [lia|].
  exists 0%Z, 1%Z.
  split; [exact Hl | split; [exact Hr | split; reflexivity]].
Defined.

(** ** The further properties on the sample inputs *)

Lemma X7_witness :
  get (SignalsRoute.normalizeStop (B := Engine.sample)
         (JObj (obj [("stop_price", num_of 90); ("why", JStr "below the low")])))
      "price" = num_of 90
  ∧ get (SignalsRoute.normalizeStop (B := Engine.sample)
           (JObj (obj [("stop_price", num_of 90); ("why", JStr "below the low")])))
        "why" = JStr "below the low".
Proof.
  destruct (X7_normalizeStop_numeric_price (B := Engine.sample)
              (JObj (obj [("stop_price", num_of 90); ("why", JStr "below the low")])))
    as (_ & _ & Hkeep & Hprice).
  split.
  - rewrite (Hprice _ eq_refl eq_refl). reflexivity.
  - rewrite (Hkeep _ "why" eq_refl); [reflexivity | discriminate].
Defined.

Lemma X8_witness :
  SignalsRoute.extractAi
    (JObj (<["AI" := JObj (obj [("probability", JNum (Fin (1 # 10)))])]>
             (obj [("ai", JObj (obj [("probability", JNum (Fin (7 # 10)))]))])))
  = SignalsRoute.extractAi
      (JObj (obj [("ai", JObj (obj [("probability", JNum (Fin (7 # 10)))]))])).
Proof.
  destruct (X8_extractAi_block
              (JObj (obj [("ai", JObj (obj [("probability", JNum (Fin (7 # 10)))]))])))
    as [_ H].
  apply (H (obj [("ai", JObj (obj [("probability", JNum (Fin (7 # 10)))]))]));
    reflexivity.
Defined.

Lemma X9_witness :
  get (SignalsRoute.normalizeRow (B := Engine.sample) row_1) "ticker" = JStr "ABC"
  ∧ get (SignalsRoute.normalizeRow (B := Engine.sample) row_1) "probability" = JNull.
Proof.
  destruct (X9_row_normalised (B := Engine.sample) row_1) as (Hkeep & _ & _ & _ & Hai).
  split.
  - rewrite Hkeep; [reflexivity|]. unfold row_keys.
    rewrite !not_elem_of_cons. repeat split; try discriminate. apply not_elem_of_nil.
  - destruct (Hai "probability") as [_ ->]; [apply list_elem_of_here | reflexivity].
Defined.



Lemma X22_witness :
  ∃ r, IngestScan.POST (B := Engine.sample) env_with_ingest_token ingest_store
         (request_with [("x-ingest-token", "s3cret")]) = Ok r
     ∧ status r = 401%nat.
Proof.
  destruct (X22_ingest_always_answers (B := Engine.sample) env_with_ingest_token
              ingest_store (request_with [("x-ingest-token", "s3cret")]))
    as (r & Hr & _ & H & _).
  exists r. split; [exact Hr|]. apply H. eexists. reflexivity.
Defined.

Lemma X25_witness :
  get (JObj (TeachLabel.rowOf (B := Engine.sample)
               (JObj (obj [("ticker", JStr "ABC"); ("secret", JStr "x")]))))
      "notes" = JNull.
Proof.
  destruct (X25_label_row_columns (B := Engine.sample)
              (JObj (obj [("ticker", JStr "ABC"); ("secret", JStr "x")])))
    as (_ & _ & H).
  destruct (H "notes") as [_ Hn]; [apply list_elem_of_here|].
  apply Hn. reflexivity.
Defined.

Lemma X27_witness :
  TeachPage.toggleReason "trend"
    (TeachPage.toggleReason "trend" (TeachPage.toggleReason "volume" []))
  = TeachPage.toggleReason "volume" [].
Proof.
  destruct (X27_entry_reasons ["volume"] "trend") as (_ & _ & _ & H).
  apply H.
  - change ("trend" ∉ ["volume"]).
    rewrite not_elem_of_cons. split; [discriminate | apply not_elem_of_nil].
  - change (length ["volume"] < 2). simpl. lia.
Defined.

(** ** What the page shows of a signal *)

Section Shown.
Context {B : Builtins}.




End Shown.


